(** * prometheus_govee_exporter: the payload decoder and the advertisement handler

    A shallow embedding of [prometheus_govee_exporter/main.py]:
    - [parse_gvh5072_5075_data], the decoder of the manufacturer data that
      GVH5072/GVH5075 sensors broadcast under company key [0xEC88];
    - [GOVEE_PARSERS], the registry of decoders by model prefix;
    - [GoveeExporter.on_advertisement], the handler that filters an
      advertisement, decodes it and overwrites the four gauges;
    - the loop of [run] that reads the [DEVICE[=LABEL]] arguments, and the
      device list that [run_scan_loop] logs before it starts scanning.

    Python values are modelled as the interpreter has them: [int] as [Z],
    [bytes] as a list of [byte], [float] as the binary64 numbers of
    [PrimFloat], [str] as [string], [dict] as [gmap], exceptions as an
    error result, and the mutable gauges and the log as an explicit world
    threaded through the handler. *)

From Stdlib Require Import ZArith List Floats Lia.
From Stdlib.Strings Require Import Byte Ascii String.
From stdpp Require Import gmap strings sorting.

Set Warnings "-inexact-float".

#[local] Open Scope Z_scope.

(** ** Python numbers *)

Module PyNum.

(** An [int] read as an exact, possibly unnormalised, binary number. *)
Definition Z2SF (z : Z) : spec_float :=
  match z with
  | Z0 => S754_zero false
  | Zpos p => S754_finite false p 0
  | Zneg p => S754_finite true p 0
  end.

(** [a / b] on two [int]s: the quotient correctly rounded to binary64
    (ties to even). The divisors of [main.py] are the constants 10000 and
    10 and the dividends stay below 2^23, so neither [ZeroDivisionError]
    nor [OverflowError] can arise there. *)
Definition int_truediv (a b : Z) : float :=
  SF2Prim (SFdiv prec emax (Z2SF a) (Z2SF b)).

(** Truth value of an [int]. *)
Definition int_bool (z : Z) : bool := negb (z =? 0).

(** The integer nearest to [num / den], ties to the even one
    ([0 <= num], [0 < den]). *)
Definition round_half_even (num den : Z) : Z :=
  let q := num / den in
  let r := num mod den in
  match 2 * r ?= den with
  | Lt => q
  | Gt => q + 1
  | Eq => if Z.even q then q else q + 1
  end.

(** The built-in [round(x, ndigits)] on a [float], for [0 <= ndigits]:
    the exact binary value of [x] is rounded to [ndigits] decimals, ties
    to even, and the resulting decimal is read back as the nearest
    binary64 number. Zeros, infinities and NaN round to themselves and a
    result of zero keeps the sign of [x]. *)
Definition py_round (x : float) (ndigits : Z) : float :=
  match Prim2SF x with
  | S754_finite s m e =>
      let scale := 10 ^ ndigits in
      let n :=
        if 0 <=? e then Zpos m * 2 ^ e * scale
        else round_half_even (Zpos m * scale) (2 ^ (- e)) in
      if n =? 0 then (if s then (-0)%float else 0%float)
      else int_truediv (if s then - n else n) scale
  | _ => x
  end.

End PyNum.

(** ** Python bytes *)

Module PyBytes.

Abbreviation bytes := (list byte).

Definition byte_to_Z (b : byte) : Z := Z.of_N (Byte.to_N b).

(** [b[i:j]] for constant [0 <= i <= j]; a slice never raises, it is cut
    at the end of [b]. *)
Definition slice (i j : nat) (b : bytes) : bytes := take (j - i) (drop i b).

(** [int.from_bytes(b, 'big')]. *)
Definition int_from_bytes_big (b : bytes) : Z :=
  fold_left (fun acc x => acc * 256 + byte_to_Z x) b 0.

End PyBytes.

Import PyNum PyBytes.

(** ** Exceptions and results *)

Inductive exn : Type :=
| KeyError (key : Z)
| IndexError
| AttributeError.

Inductive result (A : Type) : Type :=
| Ok (a : A)
| Raise (e : exn).
Arguments Ok {A} a.
Arguments Raise {A} e.

Definition raises {A : Type} (r : result A) : Prop :=
  match r with Ok _ => False | Raise _ => True end.

(** ** The payload decoder *)

(** What a decoder returns: temperature, humidity, battery. *)
Abbreviation reading := (float * float * Z)%type.

Definition parse_gvh5072_5075_data (data : gmap Z bytes) : result reading :=
  match data !! 0xec88 with
  | None => Raise (KeyError 0xec88)
  | Some temp_data =>
      let temp_vals := int_from_bytes_big (slice 1 4 temp_data) in
      let is_negative := Z.land temp_vals 0x800000 in
      let temp_vals := Z.land temp_vals 0x7FFFFF in
      let temp := int_truediv temp_vals 10000 in
      let humidity := int_truediv (temp_vals mod 1000) 10 in
      let temp := if int_bool is_negative then (- temp)%float else temp in
      match temp_data !! 4%nat with
      | None => Raise IndexError
      | Some battery_vals => Ok (temp, humidity, byte_to_Z battery_vals)
      end
  end.

(** ** Python strings *)

(** [s.startswith(p)]. *)
Definition startswith (s p : string) : bool := String.prefix p s.

(** [s.split(sep)[0]] for a one-character separator: the part of [s] before
    the first [sep], all of [s] when there is none. *)
Fixpoint split_head (sep : ascii) (s : string) : string :=
  match s with
  | EmptyString => EmptyString
  | String c s' =>
      if Ascii.eqb c sep then EmptyString else String c (split_head sep s')
  end.

(** Truth value of the result of [dict.get]: [None] and the empty string
    are false. *)
Definition get_bool (v : option string) : bool :=
  match v with
  | None => false
  | Some EmptyString => false
  | Some (String _ _) => true
  end.

(** Truth value of a [dict]: false exactly when it is empty. *)
Definition dict_bool (d : gmap string string) : bool :=
  negb (bool_decide (d = ∅)).

(** ** The registry of decoders *)

Definition GOVEE_PARSERS : gmap string (gmap Z bytes -> result reading) :=
  <["GVH5072"%string := parse_gvh5072_5075_data]>
    (<["GVH5075"%string := parse_gvh5072_5075_data]> ∅).

(** ** The exporter *)

(** What [logging.info] is called with. The second format carries
    [datetime.now()] in the source; the clock is left out of the model. *)
Inductive log_record : Type :=
| LogIgnoring (device_name : string)
| LogReading (device_name device_label : string)
    (temp_c temp_f humidity : float) (battery : Z).

(** A gauge family labelled by [(device, label)]: the last value set for
    each pair of labels. *)
Abbreviation Gauge V := (gmap (string * string) V).

(** The mutable state the handler writes: the four gauges of the exporter
    and the records handed to [logging]. *)
Record world : Type := World {
  temp_c_gauge : Gauge float;
  temp_f_gauge : Gauge float;
  humidity_gauge : Gauge float;
  battery_gauge : Gauge Z;
  log : list log_record
}.

Record GoveeExporter : Type := {
  poll_interval_secs : Z;
  devices : gmap string string
}.

Record BLEDevice : Type := { name : string }.

Record AdvertisementData : Type := { manufacturer_data : gmap Z bytes }.

(** Computations that read and write the world and may raise. *)
Definition M (A : Type) : Type := world -> result A * world.

Definition ret {A : Type} (a : A) : M A := fun w => (Ok a, w).

Definition bind {A B : Type} (c : M A) (k : A -> M B) : M B :=
  fun w =>
    match c w with
    | (Ok a, w') => k a w'
    | (Raise e, w') => (Raise e, w')
    end.

Definition lift {A : Type} (r : result A) : M A := fun w => (r, w).

Notation "x <- c ;; k" := (bind c (fun x => k))
  (at level 100, c at next level, right associativity).
Notation "c ;; k" := (bind c (fun _ => k))
  (at level 100, right associativity).

Definition logging_info (r : log_record) : M unit :=
  fun w =>
    (Ok tt, World (temp_c_gauge w) (temp_f_gauge w) (humidity_gauge w)
              (battery_gauge w) (log w ++ [r])).

Definition update_temp (device label : string) (temp_c temp_f : float)
  : M unit :=
  fun w =>
    (Ok tt, World (<[(device, label) := temp_c]> (temp_c_gauge w))
              (<[(device, label) := temp_f]> (temp_f_gauge w))
              (humidity_gauge w) (battery_gauge w) (log w)).

Definition update_humidity (device label : string) (humidity : float)
  : M unit :=
  fun w =>
    (Ok tt, World (temp_c_gauge w) (temp_f_gauge w)
              (<[(device, label) := humidity]> (humidity_gauge w))
              (battery_gauge w) (log w)).

Definition update_battery (device label : string) (battery : Z) : M unit :=
  fun w =>
    (Ok tt, World (temp_c_gauge w) (temp_f_gauge w) (humidity_gauge w)
              (<[(device, label) := battery]> (battery_gauge w)) (log w)).

(** The condition of the second guard of [on_advertisement]:
    [not device_label and self.devices]. *)
Definition not_on_scan_list (self : GoveeExporter) (device_name : string)
  : bool :=
  let device_label := devices self !! device_name in
  negb (get_bool device_label) && dict_bool (devices self).

(** [GoveeExporter.on_advertisement]. The branch under [if 0:] never runs
    and is left out. *)
Definition on_advertisement (self : GoveeExporter) (device : BLEDevice)
    (advertisement_data : AdvertisementData) : M unit :=
  let device_name := name device in
  if negb (startswith device_name "GVH") then ret tt
  else
    if not_on_scan_list self device_name then
      logging_info (LogIgnoring device_name)
    else
      match GOVEE_PARSERS !! split_head "_" device_name with
      | None => ret tt
      | Some parser =>
          r <- lift (parser (manufacturer_data advertisement_data)) ;;
          let '(temp_c, humidity, battery) := r in
          let temp_f := py_round (32 + 9 * temp_c / 5)%float 2 in
          let device_label :=
            default device_name (devices self !! device_name) in
          update_temp device_name device_label temp_c temp_f ;;
          update_humidity device_name device_label humidity ;;
          update_battery device_name device_label battery ;;
          logging_info
            (LogReading device_name device_label temp_c temp_f humidity
               battery)
      end.

(** ** The command line and the start of the scan loop *)

(** The first [sep] of [s]: the text before it and the text after it. *)
Fixpoint cut (sep : ascii) (s : string) : option (string * string) :=
  match s with
  | EmptyString => None
  | String c s' =>
      if Ascii.eqb c sep then Some (EmptyString, s')
      else
        match cut sep s' with
        | None => None
        | Some (before, after) => Some (String c before, after)
        end
  end.

(** [s.split(sep, maxsplit)] for a one-character separator: at most
    [maxsplit] cuts from the left, so at most [maxsplit + 1] parts; what
    follows the last cut is kept whole. *)
Fixpoint str_split (sep : ascii) (maxsplit : nat) (s : string)
  : list string :=
  match maxsplit with
  | O => [s]
  | S n =>
      match cut sep s with
      | None => [s]
      | Some (before, after) => before :: str_split sep n after
      end
  end.

(** One [DEVICE[=LABEL]] argument as the loop of [run] reads it:
    [device, label = pair.split('=', 2)], and when the split does not give
    exactly two parts ([ValueError]) the whole argument is both the device
    and its label. *)
Definition device_and_label (pair : string) : string * string :=
  match str_split "=" 2 pair with
  | [device; label] => (device, label)
  | _ => (pair, pair)
  end.

(** The [devices] mapping that [run] builds from [options.devices]; a later
    argument overwrites an earlier one for the same device. *)
Definition run_devices (args : list string) : gmap string string :=
  fold_left
    (fun devices pair =>
       let '(device, label) := device_and_label pair in
       <[device := label]> devices)
    args ∅.

(** The order of [sorted(..., key=lambda pair: pair[0])]: items compared by
    their device identifier. *)
Definition by_device (a b : string * string) : Prop :=
  String.leb a.1 b.1 = true.

#[local] Instance by_device_dec a b : Decision (by_device a b).
Proof. unfold by_device. apply _. Defined.

(** [sorted(self.devices.items(), key=lambda pair: pair[0])]. *)
Definition sorted_items (d : gmap string string) : list (string * string) :=
  merge_sort by_device (map_to_list d).

(** How [run_scan_loop] writes one item of the device list. *)
Definition device_entry (item : string * string) : string :=
  let '(device, label) := item in
  if String.eqb device label then device
  else (device ++ "=" ++ label)%string.

(** The [device_list] of [run_scan_loop]. *)
Definition device_list (d : gmap string string) : list string :=
  map device_entry (sorted_items d).

(** The line [run_scan_loop] logs before it starts scanning. The loop that
    follows (start, sleep, stop, forever) only drives the scanner and is
    not modelled. *)
Definition scan_loop_message (self : GoveeExporter) : string :=
  if dict_bool (devices self) then
    ("Scanning for devices (" ++ String.concat ";" (device_list (devices self))
       ++ ")...")%string
  else "Scanning for all devices..."%string.

(** Whether the character [c] occurs in [s] ([c in s]). *)
Fixpoint occurs (c : ascii) (s : string) : bool :=
  match s with
  | EmptyString => false
  | String c' s' => Ascii.eqb c' c || occurs c s'
  end.

(** ** Devices without a name *)

(** A device as the scanner delivers it: the [name] of bleak's [BLEDevice]
    is [Optional[str]]. *)
Record ScannedDevice : Type := { scanned_name : option string }.

(** [GoveeExporter.on_advertisement] on a device as delivered. When
    [device.name] is [None], [device_name.startswith] (line 265) raises
    [AttributeError] before anything is read or written; with a name the
    handler goes on as [on_advertisement]. *)
Definition on_scanned_advertisement (self : GoveeExporter)
    (device : ScannedDevice) (advertisement_data : AdvertisementData)
  : M unit :=
  match scanned_name device with
  | None => lift (Raise AttributeError)
  | Some device_name =>
      on_advertisement self {| name := device_name |} advertisement_data
  end.

(** ** Exact values and two-decimal numbers *)





(** ** Successive advertisements *)

(** The world [GoveeExporter.__init__] leaves: four gauge families without
    any cell, and nothing logged yet. *)
Definition initial_world : world := World ∅ ∅ ∅ ∅ [].

(** The world after the scanner has handed the advertisements [ads], in
    order, to [on_advertisement]. A call that raises has written nothing,
    so the next call starts from the same world. *)
Definition after_advertisements (self : GoveeExporter)
    (ads : list (BLEDevice * AdvertisementData)) (w : world) : world :=
  fold_left (fun w ad => (on_advertisement self ad.1 ad.2 w).2) ads w.

(** What holds of every cell [(device, label)] the handler creates. *)
Definition cell_ok (self : GoveeExporter) (k : string * string) : Prop :=
  startswith k.1 "GVH" = true /\
  not_on_scan_list self k.1 = false /\
  k.2 = default k.1 (devices self !! k.1) /\
  GOVEE_PARSERS !! split_head "_" k.1 = Some parse_gvh5072_5075_data.

(** What holds of the gauges between two advertisements. *)
Definition gauges_ok (self : GoveeExporter) (w : world) : Prop :=
  (forall k,
      (is_Some (temp_c_gauge w !! k) -> cell_ok self k) /\
      (is_Some (temp_c_gauge w !! k) <-> is_Some (temp_f_gauge w !! k)) /\
      (is_Some (temp_c_gauge w !! k) <-> is_Some (humidity_gauge w !! k)) /\
      (is_Some (temp_c_gauge w !! k) <-> is_Some (battery_gauge w !! k))) /\
  (forall k c f,
      temp_c_gauge w !! k = Some c ->
      temp_f_gauge w !! k = Some f ->
      f = py_round (32 + 9 * c / 5)%float 2) /\
  (forall k h,
      humidity_gauge w !! k = Some h ->
      (0 <=? h)%float = true /\ (h <=? 99.9)%float = true) /\
  (forall k b, battery_gauge w !! k = Some b -> 0 <= b <= 255).

(** Two worlds whose four gauges agree (their logs may differ). *)
Definition same_gauges (w w' : world) : Prop :=
  temp_c_gauge w = temp_c_gauge w' /\
  temp_f_gauge w = temp_f_gauge w' /\
  humidity_gauge w = humidity_gauge w' /\
  battery_gauge w = battery_gauge w'.

(** ** Checked tables *)

(** Every quotient k/10 for k = 0 .. 999, checked against the bounds. *)
Definition humidity_values_in_range : bool :=
  forallb
    (fun k : nat =>
       let h := int_truediv (Z.of_nat k) 10 in
       (0 <=? h)%float && (h <=? 99.9)%float)
    (seq 0 1000).

(** ** The quantities the decoder's specification names *)

(** The byte of a payload at an offset, as a number (0 past the end). *)
Definition byte_at (p : bytes) (i : nat) : Z :=
  from_option byte_to_Z 0 (p !! i).

(** The 24-bit big-endian integer at offsets 1 to 3. *)
Definition V_of (p : bytes) : Z :=
  65536 * byte_at p 1 + 256 * byte_at p 2 + byte_at p 3.

(** The sign flag: bit 23 of [V_of]. *)
Definition sign_of (p : bytes) : bool := Z.testbit (V_of p) 23.

(** The magnitude: [V_of] with bit 23 masked off. *)
Definition M_of (p : bytes) : Z := Z.clearbit (V_of p) 23.

Definition reading_temp (r : result reading) : option float :=
  match r with Ok (t, _, _) => Some t | Raise _ => None end.

Definition reading_humidity (r : result reading) : option float :=
  match r with Ok (_, h, _) => Some h | Raise _ => None end.

Definition reading_battery (r : result reading) : option Z :=
  match r with Ok (_, _, b) => Some b | Raise _ => None end.

(** * Properties of the decoder *)

Section BitFacts.

Lemma byte_to_Z_range (b : byte) : 0 <= byte_to_Z b <= 255.
Proof.
  unfold byte_to_Z. pose proof (Byte.to_N_bounded b) as H. lia.
Qed.

Lemma land_bit23 (v : Z) :
  Z.land v 0x800000 = if Z.testbit v 23 then 0x800000 else 0.
Proof.
  change 0x800000 with (2 ^ 23).
  apply Z.bits_inj'. intros n Hn.
  rewrite Z.land_spec, Z.pow2_bits_eqb by lia.
  destruct (Z.eqb_spec 23 n) as [<- | Hne].
  - rewrite andb_true_r.
    destruct (Z.testbit v 23).
    + rewrite Z.pow2_bits_eqb by lia. rewrite Z.eqb_refl. reflexivity.
    + rewrite Z.bits_0. reflexivity.
  - rewrite andb_false_r.
    destruct (Z.testbit v 23).
    + rewrite Z.pow2_bits_eqb by lia.
      symmetry. apply Z.eqb_neq. exact Hne.
    + rewrite Z.bits_0. reflexivity.
Qed.

Lemma int_bool_land_bit23 (v : Z) :
  int_bool (Z.land v 0x800000) = Z.testbit v 23.
Proof.
  rewrite land_bit23. destruct (Z.testbit v 23); reflexivity.
Qed.

Lemma land_mask23 (v : Z) :
  0 <= v < 2 ^ 24 -> Z.land v 0x7FFFFF = Z.clearbit v 23.
Proof.
  intros Hv. apply Z.bits_inj'. intros n Hn.
  rewrite Z.land_spec, Z.clearbit_eqb by lia.
  change 0x7FFFFF with (Z.ones 23).
  destruct (Z_lt_dec n 23) as [Hlt | Hge].
  - rewrite Z.ones_spec_low by lia.
    replace (23 =? n) with false by (symmetry; apply Z.eqb_neq; lia).
    reflexivity.
  - rewrite Z.ones_spec_high by lia.
    rewrite andb_false_r.
    destruct (Z.eqb_spec 23 n) as [<- | Hne].
    + rewrite andb_false_r. reflexivity.
    + destruct (Z.eq_dec v 0) as [-> | Hnz].
      * rewrite Z.bits_0. reflexivity.
      * rewrite Z.bits_above_log2; [reflexivity | lia |].
        assert (Z.log2 v < 24) by (apply Z.log2_lt_pow2; lia). lia.
Qed.

Lemma clearbit_flip23 (v : Z) :
  Z.clearbit (Z.lxor v (2 ^ 23)) 23 = Z.clearbit v 23.
Proof.
  apply Z.bits_inj'. intros n Hn.
  rewrite !Z.clearbit_eqb, Z.lxor_spec, Z.pow2_bits_eqb by lia.
  destruct (23 =? n); simpl.
  - rewrite !andb_false_r. reflexivity.
  - rewrite xorb_false_r. reflexivity.
Qed.

Lemma clearbit23_range (v : Z) :
  0 <= v < 2 ^ 24 -> 0 <= Z.clearbit v 23 < 2 ^ 23.
Proof.
  intros Hv. rewrite <- land_mask23 by exact Hv.
  change 0x7FFFFF with (Z.ones 23).
  rewrite Z.land_ones by lia.
  apply Z.mod_pos_bound. lia.
Qed.

End BitFacts.

Section Decoder.

Implicit Types (data : gmap Z bytes) (p : bytes).

Lemma long_payload_inv p :
  (5 <= length p)%nat ->
  exists b0 b1 b2 b3 b4 rest, p = b0 :: b1 :: b2 :: b3 :: b4 :: rest.
Proof.
  intros Hlen.
  destruct p as [|b0 [|b1 [|b2 [|b3 [|b4 rest]]]]]; simpl in Hlen; try lia.
  now exists b0, b1, b2, b3, b4, rest.
Qed.

Lemma V_of_range p : 0 <= V_of p < 2 ^ 24.
Proof.
  unfold V_of, byte_at.
  assert (Hb : forall i, 0 <= from_option byte_to_Z 0 (p !! i) <= 255).
  { intros i. destruct (p !! i) as [b|]; simpl.
    - apply byte_to_Z_range.
    - lia. }
  pose proof (Hb 1%nat). pose proof (Hb 2%nat). pose proof (Hb 3%nat).
  change (2 ^ 24) with 16777216. lia.
Qed.

Lemma from_bytes_offsets_1_3 p :
  (5 <= length p)%nat -> int_from_bytes_big (slice 1 4 p) = V_of p.
Proof.
  intros Hlen.
  destruct (long_payload_inv p Hlen) as (b0 & b1 & b2 & b3 & b4 & rest & ->).
  unfold V_of, byte_at, int_from_bytes_big, slice. simpl. lia.
Qed.

(** The decoder on a payload of five bytes or more, in the words of its
    specification. *)
Lemma parse_long_payload data p :
  data !! 0xec88 = Some p ->
  (5 <= length p)%nat ->
  parse_gvh5072_5075_data data =
    Ok (if sign_of p then (- int_truediv (M_of p) 10000)%float
        else int_truediv (M_of p) 10000,
        int_truediv (M_of p mod 1000) 10,
        byte_at p 4).
Proof.
  intros Hkey Hlen.
  unfold parse_gvh5072_5075_data. rewrite Hkey.
  rewrite (from_bytes_offsets_1_3 p Hlen).
  rewrite int_bool_land_bit23, (land_mask23 _ (V_of_range p)).
  fold (sign_of p). fold (M_of p).
  destruct (long_payload_inv p Hlen) as (b0 & b1 & b2 & b3 & b4 & rest & ->).
  reflexivity.
Qed.

Lemma parse_short_payload data p :
  data !! 0xec88 = Some p ->
  (length p < 5)%nat ->
  parse_gvh5072_5075_data data = Raise IndexError.
Proof.
  intros Hkey Hlen.
  unfold parse_gvh5072_5075_data. rewrite Hkey.
  rewrite (proj2 (lookup_ge_None p 4)) by lia.
  reflexivity.
Qed.

Lemma parse_missing_key data :
  data !! 0xec88 = None ->
  parse_gvh5072_5075_data data = Raise (KeyError 0xec88).
Proof.
  intros Hkey. unfold parse_gvh5072_5075_data. now rewrite Hkey.
Qed.

(** C1. For the manufacturer data [{0xEC88: 00 01 02 03 50}] the decoder
    returns exactly temperature 6.6051, humidity 5.1 and battery 80. *)
Theorem C1_decode_scenario :
  parse_gvh5072_5075_data {[ 0xec88 := [x00; x01; x02; x03; x50] ]}
  = Ok (6.6051%float, 5.1%float, 80).
Proof. vm_compute. reflexivity. Qed.

(** C2. For every payload of at least five bytes under key 0xEC88, with V
    the 24-bit big-endian integer at offsets 1 to 3 and M the value V with
    bit 23 masked off, the decoded temperature is M/10000 when bit 23 of V
    is clear and -(M/10000) when it is set; a magnitude of 213400 (21.34)
    with bit 23 set decodes to -21.34. *)
Theorem C2_temperature_sign_magnitude :
  (forall data p,
      data !! 0xec88 = Some p ->
      (5 <= length p)%nat ->
      let V := V_of p in
      let M := Z.clearbit V 23 in
      reading_temp (parse_gvh5072_5075_data data) =
        Some (if Z.testbit V 23 then (- int_truediv M 10000)%float
              else int_truediv M 10000)) /\
  (forall data p,
      data !! 0xec88 = Some p ->
      (5 <= length p)%nat ->
      Z.clearbit (V_of p) 23 = 213400 ->
      (Z.testbit (V_of p) 23 = false ->
       reading_temp (parse_gvh5072_5075_data data) = Some 21.34%float) /\
      (Z.testbit (V_of p) 23 = true ->
       reading_temp (parse_gvh5072_5075_data data) = Some (-21.34)%float)).
Proof.
  split.
  - intros data p Hkey Hlen V M.
    rewrite (parse_long_payload data p Hkey Hlen). reflexivity.
  - intros data p Hkey Hlen HM.
    rewrite (parse_long_payload data p Hkey Hlen).
    unfold sign_of, M_of. rewrite HM.
    split; intros ->; vm_compute; reflexivity.
Qed.

Lemma C2_temperature_sign_magnitude_witness :
  reading_temp
    (parse_gvh5072_5075_data {[ 0xec88 := [x00; x83; x41; x98; x64] ]})
  = Some (-21.34)%float.
Proof.
  apply (proj2 C2_temperature_sign_magnitude
           {[ 0xec88 := [x00; x83; x41; x98; x64] ]}
           [x00; x83; x41; x98; x64]).
  - reflexivity.
  - simpl. lia.
  - reflexivity.
  - reflexivity.
Defined.

(** C3. For every payload of at least five bytes under key 0xEC88 the
    decoded humidity is (M mod 1000)/10 for the 23-bit magnitude M; it does
    not change when bit 23 is flipped, it is the same for two magnitudes
    congruent modulo 1000, and magnitude 123456 gives 45.6. *)
Theorem C3_humidity_from_magnitude :
  (forall data p,
      data !! 0xec88 = Some p ->
      (5 <= length p)%nat ->
      reading_humidity (parse_gvh5072_5075_data data) =
        Some (int_truediv (Z.clearbit (V_of p) 23 mod 1000) 10)) /\
  (forall data p data' p',
      data !! 0xec88 = Some p -> (5 <= length p)%nat ->
      data' !! 0xec88 = Some p' -> (5 <= length p')%nat ->
      V_of p' = Z.lxor (V_of p) (2 ^ 23) ->
      reading_humidity (parse_gvh5072_5075_data data') =
        reading_humidity (parse_gvh5072_5075_data data)) /\
  (forall data p data' p',
      data !! 0xec88 = Some p -> (5 <= length p)%nat ->
      data' !! 0xec88 = Some p' -> (5 <= length p')%nat ->
      M_of p mod 1000 = M_of p' mod 1000 ->
      reading_humidity (parse_gvh5072_5075_data data') =
        reading_humidity (parse_gvh5072_5075_data data)) /\
  (forall data p,
      data !! 0xec88 = Some p -> (5 <= length p)%nat ->
      M_of p = 123456 ->
      reading_humidity (parse_gvh5072_5075_data data) = Some 45.6%float).
Proof.
  repeat split.
  - intros data p Hkey Hlen.
    rewrite (parse_long_payload data p Hkey Hlen). reflexivity.
  - intros data p data' p' Hkey Hlen Hkey' Hlen' Hflip.
    rewrite (parse_long_payload data p Hkey Hlen).
    rewrite (parse_long_payload data' p' Hkey' Hlen').
    unfold M_of. rewrite Hflip, clearbit_flip23. reflexivity.
  - intros data p data' p' Hkey Hlen Hkey' Hlen' Hmod.
    rewrite (parse_long_payload data p Hkey Hlen).
    rewrite (parse_long_payload data' p' Hkey' Hlen').
    simpl. rewrite Hmod. reflexivity.
  - intros data p Hkey Hlen HM.
    rewrite (parse_long_payload data p Hkey Hlen).
    simpl. rewrite HM. vm_compute. reflexivity.
Qed.

Lemma C3_humidity_from_magnitude_witness :
  reading_humidity
    (parse_gvh5072_5075_data {[ 0xec88 := [x00; x81; xe2; x40; x64] ]})
  = reading_humidity
      (parse_gvh5072_5075_data {[ 0xec88 := [xff; x01; xe2; x40; x32; x00] ]})
  /\ reading_humidity
       (parse_gvh5072_5075_data {[ 0xec88 := [x00; x81; xe2; x40; x64] ]})
     = Some 45.6%float.
Proof.
  destruct C3_humidity_from_magnitude as (_ & Hflip & _ & Hex).
  split.
  - apply (Hflip {[ 0xec88 := [xff; x01; xe2; x40; x32; x00] ]}
             [xff; x01; xe2; x40; x32; x00]
             {[ 0xec88 := [x00; x81; xe2; x40; x64] ]}
             [x00; x81; xe2; x40; x64]).
    + reflexivity.
    + simpl. lia.
    + reflexivity.
    + simpl. lia.
    + reflexivity.
  - apply (Hex {[ 0xec88 := [x00; x81; xe2; x40; x64] ]}
             [x00; x81; xe2; x40; x64]).
    + reflexivity.
    + simpl. lia.
    + reflexivity.
Defined.

(** C4. The decoder raises if and only if the mapping has no key 0xEC88 or
    the payload under it has fewer than five bytes; for every mapping with
    a payload of at least five bytes under 0xEC88 it returns a
    (temperature, humidity, battery) triple. *)
Theorem C4_decoder_fails_iff_malformed :
  forall data,
    (raises (parse_gvh5072_5075_data data) <->
       data !! 0xec88 = None \/
       exists p, data !! 0xec88 = Some p /\ (length p < 5)%nat) /\
    (forall p,
        data !! 0xec88 = Some p ->
        (5 <= length p)%nat ->
        exists temp humidity battery,
          parse_gvh5072_5075_data data = Ok (temp, humidity, battery)).
Proof.
  intros data. split.
  - destruct (data !! 0xec88) as [p|] eqn:Hkey.
    + destruct (le_lt_dec 5 (length p)) as [Hlong | Hshort].
      * rewrite (parse_long_payload data p Hkey Hlong). simpl. split.
        -- intros [].
        -- intros [Hnone | (q & Hq & Hlt)].
           ++ discriminate Hnone.
           ++ injection Hq as <-. lia.
      * rewrite (parse_short_payload data p Hkey Hshort). simpl. split.
        -- intros _. right. exists p. split; [reflexivity | exact Hshort].
        -- intros _. exact I.
    + rewrite (parse_missing_key data Hkey). simpl. split.
      * intros _. left. reflexivity.
      * intros _. exact I.
  - intros p Hkey Hlen.
    rewrite (parse_long_payload data p Hkey Hlen). eauto.
Qed.

Lemma C4_decoder_fails_iff_malformed_witness :
  raises (parse_gvh5072_5075_data {[ 0xec88 := [x00; x01; x02; x03] ]}) /\
  raises (parse_gvh5072_5075_data {[ 0x004c := [x00; x01; x02; x03; x50] ]}) /\
  exists temp humidity battery,
    parse_gvh5072_5075_data {[ 0xec88 := [x00; x01; x02; x03; x50] ]}
    = Ok (temp, humidity, battery).
Proof.
  split; [|split].
  - apply (proj1 (C4_decoder_fails_iff_malformed
                    {[ 0xec88 := [x00; x01; x02; x03] ]})).
    right. exists [x00; x01; x02; x03]. split; [reflexivity | simpl; lia].
  - apply (proj1 (C4_decoder_fails_iff_malformed
                    {[ 0x004c := [x00; x01; x02; x03; x50] ]})).
    left. reflexivity.
  - apply (proj2 (C4_decoder_fails_iff_malformed
                    {[ 0xec88 := [x00; x01; x02; x03; x50] ]})
             [x00; x01; x02; x03; x50]).
    + reflexivity.
    + simpl. lia.
Defined.

(** The battery value is the byte at offset 4 as it is: the decoder neither
    scales it nor checks its range, so it can be any integer from 0 to
    255. *)
Lemma battery_is_raw_byte data p :
  data !! 0xec88 = Some p ->
  (5 <= length p)%nat ->
  reading_battery (parse_gvh5072_5075_data data) = Some (byte_at p 4) /\
  0 <= byte_at p 4 <= 255.
Proof.
  intros Hkey Hlen. split.
  - rewrite (parse_long_payload data p Hkey Hlen). reflexivity.
  - destruct (long_payload_inv p Hlen) as (b0 & b1 & b2 & b3 & b4 & rest & ->).
    unfold byte_at. simpl. apply byte_to_Z_range.
Qed.

(** C5, where the code departs from it. The decoder's docstring promises a
    battery level between 0 and 100, but the byte at offset 4 is returned
    unchecked: the payload 00 01 02 03 FF has five bytes and decodes to
    battery 255, the raw byte, which is not between 0 and 100. *)
Theorem C5_battery_above_100 :
  exists temp humidity battery,
    parse_gvh5072_5075_data {[ 0xec88 := [x00; x01; x02; x03; xff] ]}
    = Ok (temp, humidity, battery) /\
    battery = byte_at [x00; x01; x02; x03; xff] 4 /\
    ~ (0 <= battery <= 100).
Proof.
  exists 6.6051%float, 5.1%float, 255.
  split; [vm_compute; reflexivity | split; [reflexivity | lia]].
Qed.

(** C10. The decoder's result depends only on the bytes at offsets 1 to 4:
    two mappings whose 0xEC88 payloads have at least five bytes and agree
    at offsets 1, 2, 3 and 4 decode to the same triple. *)
Theorem C10_depends_only_on_offsets_1_to_4 :
  forall data p data' p',
    data !! 0xec88 = Some p -> (5 <= length p)%nat ->
    data' !! 0xec88 = Some p' -> (5 <= length p')%nat ->
    p !! 1%nat = p' !! 1%nat ->
    p !! 2%nat = p' !! 2%nat ->
    p !! 3%nat = p' !! 3%nat ->
    p !! 4%nat = p' !! 4%nat ->
    parse_gvh5072_5075_data data = parse_gvh5072_5075_data data'.
Proof.
  intros data p data' p' Hkey Hlen Hkey' Hlen' H1 H2 H3 H4.
  rewrite (parse_long_payload data p Hkey Hlen).
  rewrite (parse_long_payload data' p' Hkey' Hlen').
  unfold sign_of, M_of, V_of, byte_at.
  rewrite H1, H2, H3, H4. reflexivity.
Qed.

Lemma C10_depends_only_on_offsets_1_to_4_witness :
  parse_gvh5072_5075_data {[ 0xec88 := [x00; x01; x02; x03; x50] ]}
  = parse_gvh5072_5075_data
      (<[ 0x004c := [x02; x15] ]>
         {[ 0xec88 := [xff; x01; x02; x03; x50; xaa; xbb] ]}).
Proof.
  apply (C10_depends_only_on_offsets_1_to_4
           {[ 0xec88 := [x00; x01; x02; x03; x50] ]}
           [x00; x01; x02; x03; x50]
           (<[ 0x004c := [x02; x15] ]>
              {[ 0xec88 := [xff; x01; x02; x03; x50; xaa; xbb] ]})
           [xff; x01; x02; x03; x50; xaa; xbb]).
  - reflexivity.
  - simpl. lia.
  - reflexivity.
  - simpl. lia.
  - reflexivity.
  - reflexivity.
  - reflexivity.
  - reflexivity.
Defined.

End Decoder.

(** * Properties of the advertisement handler *)

Section Handler.

Implicit Types (self : GoveeExporter) (device : BLEDevice)
  (adv : AdvertisementData) (w : world).

(** The temperature in Fahrenheit that the handler derives from a decoded
    temperature (line 304 of [main.py]). *)
Abbreviation fahrenheit_of temp_c :=
  (py_round (32 + 9 * temp_c / 5)%float 2).

Lemma dict_bool_empty : dict_bool ∅ = false.
Proof. reflexivity. Qed.

Lemma dict_bool_lookup (d : gmap string string) k v :
  d !! k = Some v -> dict_bool d = true.
Proof.
  intros Hk. unfold dict_bool.
  rewrite bool_decide_eq_false_2; [reflexivity |].
  intros ->. rewrite lookup_empty in Hk. discriminate Hk.
Qed.

Lemma dict_bool_nonempty (d : gmap string string) :
  d <> ∅ -> dict_bool d = true.
Proof.
  intros Hne. unfold dict_bool.
  rewrite bool_decide_eq_false_2; [reflexivity | exact Hne].
Qed.

Lemma not_on_scan_list_empty self device_name :
  devices self = ∅ -> not_on_scan_list self device_name = false.
Proof.
  intros Hd. unfold not_on_scan_list. rewrite Hd, dict_bool_empty.
  apply andb_false_r.
Qed.

Lemma not_on_scan_list_unlisted self device_name :
  devices self <> ∅ ->
  devices self !! device_name = None ->
  not_on_scan_list self device_name = true.
Proof.
  intros Hne Hk. unfold not_on_scan_list.
  rewrite Hk, (dict_bool_nonempty _ Hne). reflexivity.
Qed.

Lemma not_on_scan_list_labelled self device_name label :
  devices self !! device_name = Some label ->
  label <> EmptyString ->
  not_on_scan_list self device_name = false.
Proof.
  intros Hk Hlabel. unfold not_on_scan_list. rewrite Hk.
  destruct label; [contradiction | reflexivity].
Qed.

Lemma not_on_scan_list_empty_label self device_name :
  devices self !! device_name = Some EmptyString ->
  not_on_scan_list self device_name = true.
Proof.
  intros Hk. unfold not_on_scan_list.
  rewrite Hk, (dict_bool_lookup _ _ _ Hk). reflexivity.
Qed.

Lemma on_advertisement_ignored self device adv w :
  startswith (name device) "GVH" = true ->
  not_on_scan_list self (name device) = true ->
  on_advertisement self device adv w =
    (Ok tt,
     World (temp_c_gauge w) (temp_f_gauge w) (humidity_gauge w)
       (battery_gauge w) (log w ++ [LogIgnoring (name device)])).
Proof.
  intros Hpre Hrej. unfold on_advertisement. cbv zeta.
  rewrite Hpre, Hrej. reflexivity.
Qed.

Lemma on_advertisement_no_parser self device adv w :
  startswith (name device) "GVH" = true ->
  not_on_scan_list self (name device) = false ->
  GOVEE_PARSERS !! split_head "_" (name device) = None ->
  on_advertisement self device adv w = (Ok tt, w).
Proof.
  intros Hpre Hacc Hparser. unfold on_advertisement. cbv zeta.
  rewrite Hpre, Hacc, Hparser. reflexivity.
Qed.

Lemma on_advertisement_parser_raises self device adv w parser e :
  startswith (name device) "GVH" = true ->
  not_on_scan_list self (name device) = false ->
  GOVEE_PARSERS !! split_head "_" (name device) = Some parser ->
  parser (manufacturer_data adv) = Raise e ->
  on_advertisement self device adv w = (Raise e, w).
Proof.
  intros Hpre Hacc Hparser Hraise. unfold on_advertisement. cbv zeta.
  rewrite Hpre, Hacc, Hparser. simpl.
  unfold bind, lift. rewrite Hraise. reflexivity.
Qed.

Lemma on_advertisement_recorded self device adv w parser temp_c humidity
    battery :
  startswith (name device) "GVH" = true ->
  not_on_scan_list self (name device) = false ->
  GOVEE_PARSERS !! split_head "_" (name device) = Some parser ->
  parser (manufacturer_data adv) = Ok (temp_c, humidity, battery) ->
  let device_name := name device in
  let device_label := default device_name (devices self !! device_name) in
  on_advertisement self device adv w =
    (Ok tt,
     World (<[(device_name, device_label) := temp_c]> (temp_c_gauge w))
       (<[(device_name, device_label) := fahrenheit_of temp_c]>
          (temp_f_gauge w))
       (<[(device_name, device_label) := humidity]> (humidity_gauge w))
       (<[(device_name, device_label) := battery]> (battery_gauge w))
       (log w ++
          [LogReading device_name device_label temp_c
             (fahrenheit_of temp_c) humidity battery])).
Proof.
  intros Hpre Hacc Hparser Hok. unfold on_advertisement. cbv zeta.
  rewrite Hpre, Hacc, Hparser. simpl.
  unfold bind, lift. rewrite Hok. reflexivity.
Qed.

(** On an advertisement that passes both guards the handler never logs
    that the device is ignored. *)
Lemma on_advertisement_accepted_log self device adv w :
  startswith (name device) "GVH" = true ->
  not_on_scan_list self (name device) = false ->
  ~ In (LogIgnoring (name device))
      (drop (length (log w)) (log (snd (on_advertisement self device adv w)))).
Proof.
  intros Hpre Hacc.
  destruct (GOVEE_PARSERS !! split_head "_" (name device))
    as [parser|] eqn:Hparser.
  - destruct (parser (manufacturer_data adv)) as [[[c h] b]|e] eqn:Hres.
    + rewrite (on_advertisement_recorded _ _ _ _ _ _ _ _ Hpre Hacc Hparser Hres).
      simpl. rewrite drop_app_length. simpl. intros [Hin | []]. discriminate Hin.
    + rewrite (on_advertisement_parser_raises _ _ _ _ _ _ Hpre Hacc Hparser Hres).
      simpl. rewrite drop_all. intros [].
  - rewrite (on_advertisement_no_parser _ _ _ _ Hpre Hacc Hparser).
    simpl. rewrite drop_all. intros [].
Qed.

(** What the handler does for a device that is listed with a non-empty
    label, and for one that is not listed in a non-empty allow-list. *)
Lemma allow_list_labelled_device self device adv w label parser temp_c
    humidity battery :
  startswith (name device) "GVH" = true ->
  devices self !! name device = Some label ->
  label <> EmptyString ->
  GOVEE_PARSERS !! split_head "_" (name device) = Some parser ->
  parser (manufacturer_data adv) = Ok (temp_c, humidity, battery) ->
  on_advertisement self device adv w =
    (Ok tt,
     World (<[(name device, label) := temp_c]> (temp_c_gauge w))
       (<[(name device, label) := fahrenheit_of temp_c]> (temp_f_gauge w))
       (<[(name device, label) := humidity]> (humidity_gauge w))
       (<[(name device, label) := battery]> (battery_gauge w))
       (log w ++
          [LogReading (name device) label temp_c (fahrenheit_of temp_c)
             humidity battery])).
Proof.
  intros Hpre Hk Hlabel Hparser Hok.
  rewrite (on_advertisement_recorded _ _ _ _ _ _ _ _ Hpre
             (not_on_scan_list_labelled _ _ _ Hk Hlabel) Hparser Hok).
  rewrite Hk. reflexivity.
Qed.

Lemma allow_list_unlisted_device self device adv w :
  startswith (name device) "GVH" = true ->
  devices self <> ∅ ->
  devices self !! name device = None ->
  on_advertisement self device adv w =
    (Ok tt,
     World (temp_c_gauge w) (temp_f_gauge w) (humidity_gauge w)
       (battery_gauge w) (log w ++ [LogIgnoring (name device)])).
Proof.
  intros Hpre Hne Hk.
  apply on_advertisement_ignored;
    [exact Hpre | apply not_on_scan_list_unlisted; assumption].
Qed.

Example allow_list_living_room :
  let self := {| poll_interval_secs := 30;
                 devices := {[ "GVH5075_ABCD"%string := "Living Room"%string ]} |} in
  let adv := {| manufacturer_data :=
                  {[ 0xec88 := [x00; x01; x02; x03; x50] ]} |} in
  let w := World ∅ ∅ ∅ ∅ [] in
  on_advertisement self {| name := "GVH5075_ABCD" |} adv w =
    (Ok tt,
     World {[ ("GVH5075_ABCD"%string, "Living Room"%string) := 6.6051%float ]}
       {[ ("GVH5075_ABCD"%string, "Living Room"%string) := 43.89%float ]}
       {[ ("GVH5075_ABCD"%string, "Living Room"%string) := 5.1%float ]}
       {[ ("GVH5075_ABCD"%string, "Living Room"%string) := 80 ]}
       [LogReading "GVH5075_ABCD" "Living Room" 6.6051 43.89 5.1 80]) /\
  on_advertisement self {| name := "GVH5075_WXYZ" |} adv w =
    (Ok tt, World ∅ ∅ ∅ ∅ [LogIgnoring "GVH5075_WXYZ"]).
Proof. split; vm_compute; reflexivity. Qed.

(** C6, where the code departs from it. The device "GVH5075_ABCD" is a key
    of the allow-list, configured with the empty label; its advertisement
    is nevertheless dropped at the allow-list guard: the handler logs that
    the device is ignored and no gauge is written. *)
Theorem C6_listed_device_with_empty_label_is_ignored :
  on_advertisement
    {| poll_interval_secs := 30;
       devices := {[ "GVH5075_ABCD"%string := ""%string ]} |}
    {| name := "GVH5075_ABCD" |}
    {| manufacturer_data := {[ 0xec88 := [x00; x01; x02; x03; x50] ]} |}
    (World ∅ ∅ ∅ ∅ [])
  = (Ok tt, World ∅ ∅ ∅ ∅ [LogIgnoring "GVH5075_ABCD"]).
Proof.
  rewrite on_advertisement_ignored.
  - reflexivity.
  - reflexivity.
  - apply not_on_scan_list_empty_label. reflexivity.
Qed.

(** C7. For every device identifier that does not begin with "GVH", and
    every allow-list, the handler returns at once: no gauge is written and
    nothing is logged. *)
Theorem C7_foreign_device_silently_ignored :
  forall self device adv w,
    startswith (name device) "GVH" = false ->
    on_advertisement self device adv w = (Ok tt, w).
Proof.
  intros self device adv w Hpre.
  unfold on_advertisement. cbv zeta. rewrite Hpre. reflexivity.
Qed.

Lemma C7_foreign_device_silently_ignored_witness :
  on_advertisement
    {| poll_interval_secs := 30;
       devices := {[ "ABCD1234"%string := "Cellar"%string ]} |}
    {| name := "ABCD1234" |}
    {| manufacturer_data := {[ 0xec88 := [x00; x01; x02; x03; x50] ]} |}
    (World ∅ ∅ ∅ ∅ [])
  = (Ok tt, World ∅ ∅ ∅ ∅ []).
Proof.
  apply (C7_foreign_device_silently_ignored
           {| poll_interval_secs := 30;
              devices := {[ "ABCD1234"%string := "Cellar"%string ]} |}
           {| name := "ABCD1234" |}).
  reflexivity.
Defined.

(** C8. With an empty allow-list every "GVH"-prefixed identifier passes the
    allow-list guard (the handler does not log that it is ignored), and
    when its reading is recorded the label of every gauge is the identifier
    itself. *)
Theorem C8_empty_allow_list_accepts_all :
  forall self device adv w,
    devices self = ∅ ->
    startswith (name device) "GVH" = true ->
    not_on_scan_list self (name device) = false /\
    ~ In (LogIgnoring (name device))
        (drop (length (log w))
           (log (snd (on_advertisement self device adv w)))) /\
    (forall parser temp_c humidity battery,
        GOVEE_PARSERS !! split_head "_" (name device) = Some parser ->
        parser (manufacturer_data adv) = Ok (temp_c, humidity, battery) ->
        on_advertisement self device adv w =
          (Ok tt,
           World
             (<[(name device, name device) := temp_c]> (temp_c_gauge w))
             (<[(name device, name device) := fahrenheit_of temp_c]>
                (temp_f_gauge w))
             (<[(name device, name device) := humidity]> (humidity_gauge w))
             (<[(name device, name device) := battery]> (battery_gauge w))
             (log w ++
                [LogReading (name device) (name device) temp_c
                   (fahrenheit_of temp_c) humidity battery]))).
Proof.
  intros self device adv w Hempty Hpre.
  pose proof (not_on_scan_list_empty self (name device) Hempty) as Hacc.
  split; [exact Hacc | split].
  - apply on_advertisement_accepted_log; assumption.
  - intros parser temp_c humidity battery Hparser Hok.
    rewrite (on_advertisement_recorded _ _ _ _ _ _ _ _ Hpre Hacc Hparser Hok).
    rewrite Hempty, lookup_empty. reflexivity.
Qed.

Lemma C8_empty_allow_list_accepts_all_witness :
  on_advertisement
    {| poll_interval_secs := 30; devices := ∅ |}
    {| name := "GVH5072_1F2E" |}
    {| manufacturer_data := {[ 0xec88 := [x00; x01; x02; x03; x50] ]} |}
    (World ∅ ∅ ∅ ∅ [])
  = (Ok tt,
     World
       (<[("GVH5072_1F2E"%string, "GVH5072_1F2E"%string) := 6.6051%float]> ∅)
       (<[("GVH5072_1F2E"%string, "GVH5072_1F2E"%string) :=
            fahrenheit_of 6.6051%float]> ∅)
       (<[("GVH5072_1F2E"%string, "GVH5072_1F2E"%string) := 5.1%float]> ∅)
       (<[("GVH5072_1F2E"%string, "GVH5072_1F2E"%string) := 80]> ∅)
       ([] ++
          [LogReading "GVH5072_1F2E" "GVH5072_1F2E" 6.6051
             (fahrenheit_of 6.6051%float) 5.1 80])).
Proof.
  apply (proj2 (proj2 (C8_empty_allow_list_accepts_all
                         {| poll_interval_secs := 30; devices := ∅ |}
                         {| name := "GVH5072_1F2E" |}
                         {| manufacturer_data :=
                              {[ 0xec88 := [x00; x01; x02; x03; x50] ]} |}
                         (World ∅ ∅ ∅ ∅ [])
                         eq_refl eq_refl))
           parse_gvh5072_5075_data).
  - reflexivity.
  - vm_compute. reflexivity.
Defined.






End Handler.

(** * Further properties of the decoder *)

Section DecoderErrors.

Implicit Types (data : gmap Z bytes) (p : bytes).

(** X1. The decoder raises [KeyError(0xEC88)] exactly when the mapping has
    no key 0xEC88 and [IndexError] exactly when the payload under that key
    has fewer than five bytes; it raises nothing else. *)
Theorem X1_decoder_exception_kinds :
  forall data,
    (parse_gvh5072_5075_data data = Raise (KeyError 0xec88) <->
       data !! 0xec88 = None) /\
    (parse_gvh5072_5075_data data = Raise IndexError <->
       exists p, data !! 0xec88 = Some p /\ (length p < 5)%nat) /\
    (forall e,
        parse_gvh5072_5075_data data = Raise e ->
        e = KeyError 0xec88 \/ e = IndexError).
Proof.
  intros data.
  destruct (data !! 0xec88) as [p|] eqn:Hkey.
  - destruct (le_lt_dec 5 (length p)) as [Hlong | Hshort].
    + rewrite (parse_long_payload data p Hkey Hlong).
      split; [| split].
      * split; intros H; discriminate H.
      * split.
        -- intros H. discriminate H.
        -- intros (q & Hq & Hlt). injection Hq as <-. lia.
      * intros e H. discriminate H.
    + rewrite (parse_short_payload data p Hkey Hshort).
      split; [| split].
      * split; intros H; discriminate H.
      * split.
        -- intros _. exists p. split; [reflexivity | exact Hshort].
        -- intros _. reflexivity.
      * intros e H. injection H as <-. right. reflexivity.
  - rewrite (parse_missing_key data Hkey).
    split; [| split].
    + split; intros _; reflexivity.
    + split.
      * intros H. discriminate H.
      * intros (q & Hq & _). discriminate Hq.
    + intros e H. injection H as <-. left. reflexivity.
Qed.

Lemma X1_decoder_exception_kinds_witness :
  parse_gvh5072_5075_data {[ 0x004c := [x02; x15; x00; x00; x00] ]}
  = Raise (KeyError 0xec88) /\
  parse_gvh5072_5075_data {[ 0xec88 := [x00; x01; x02; x03] ]}
  = Raise IndexError.
Proof.
  split.
  - apply (proj2 (proj1 (X1_decoder_exception_kinds
                           {[ 0x004c := [x02; x15; x00; x00; x00] ]}))).
    reflexivity.
  - apply (proj2 (proj1 (proj2 (X1_decoder_exception_kinds
                                  {[ 0xec88 := [x00; x01; x02; x03] ]})))).
    exists [x00; x01; x02; x03]. split; [reflexivity | simpl; lia].
Defined.

Lemma humidity_values_in_range_true : humidity_values_in_range = true.
Proof. vm_compute. reflexivity. Qed.

Lemma humidity_value_bounds (k : Z) :
  0 <= k < 1000 ->
  (0 <=? int_truediv k 10)%float = true /\
  (int_truediv k 10 <=? 99.9)%float = true.
Proof.
  intros Hk.
  pose proof humidity_values_in_range_true as Hall.
  unfold humidity_values_in_range in Hall.
  rewrite forallb_forall in Hall.
  specialize (Hall (Z.to_nat k)).
  rewrite Z2Nat.id in Hall by lia.
  apply andb_true_iff. apply Hall.
  apply in_seq. lia.
Qed.

(** X2. Whatever bytes a payload of at least five bytes carries, the
    decoded humidity lies between 0 and 99.9. *)
Theorem X2_humidity_between_0_and_99_9 :
  forall data p,
    data !! 0xec88 = Some p ->
    (5 <= length p)%nat ->
    exists h,
      reading_humidity (parse_gvh5072_5075_data data) = Some h /\
      (0 <=? h)%float = true /\
      (h <=? 99.9)%float = true.
Proof.
  intros data p Hkey Hlen.
  rewrite (parse_long_payload data p Hkey Hlen). simpl.
  eexists. split; [reflexivity |].
  apply humidity_value_bounds.
  apply Z.mod_pos_bound. lia.
Qed.

Lemma X2_humidity_between_0_and_99_9_witness :
  exists h,
    reading_humidity
      (parse_gvh5072_5075_data {[ 0xec88 := [x00; xff; xff; xff; x64] ]})
    = Some h /\
    (0 <=? h)%float = true /\
    (h <=? 99.9)%float = true.
Proof.
  apply (X2_humidity_between_0_and_99_9
           {[ 0xec88 := [x00; xff; xff; xff; x64] ]}
           [x00; xff; xff; xff; x64]).
  - reflexivity.
  - simpl. lia.
Defined.

End DecoderErrors.

(** * Further properties of the advertisement handler *)

Section HandlerEffects.

Implicit Types (self : GoveeExporter) (device : BLEDevice)
  (adv : AdvertisementData) (w : world).

Lemma GOVEE_PARSERS_Some k parser :
  GOVEE_PARSERS !! k = Some parser ->
  parser = parse_gvh5072_5075_data /\
  (k = "GVH5072"%string \/ k = "GVH5075"%string).
Proof.
  unfold GOVEE_PARSERS. intros H.
  apply lookup_insert_Some in H as [[<- <-] | [_ H]]; [auto |].
  apply lookup_insert_Some in H as [[<- <-] | [_ H]]; [auto |].
  rewrite lookup_empty in H. discriminate H.
Qed.

Lemma GOVEE_PARSERS_None k :
  GOVEE_PARSERS !! k = None <->
  k <> "GVH5072"%string /\ k <> "GVH5075"%string.
Proof.
  unfold GOVEE_PARSERS.
  rewrite !lookup_insert_None, lookup_empty. intuition congruence.
Qed.

(** A label the handler records under is never empty. *)
Lemma recorded_label_nonempty self device_name :
  startswith device_name "GVH" = true ->
  not_on_scan_list self device_name = false ->
  default device_name (devices self !! device_name) <> EmptyString.
Proof.
  unfold not_on_scan_list. intros Hpre Hacc.
  destruct (devices self !! device_name) as [[|c l]|] eqn:Hk; simpl in *.
  - rewrite (dict_bool_lookup _ _ _ Hk) in Hacc. discriminate Hacc.
  - discriminate.
  - intros ->. discriminate Hpre.
Qed.

(** The three things a call of the handler can do, whatever the world it
    starts from: nothing (returning or raising), log that the device is
    ignored, or record a reading. *)
Lemma on_advertisement_effect self device adv :
  (exists r, forall w, on_advertisement self device adv w = (r, w)) \/
  (forall w,
      on_advertisement self device adv w =
        (Ok tt,
         World (temp_c_gauge w) (temp_f_gauge w) (humidity_gauge w)
           (battery_gauge w) (log w ++ [LogIgnoring (name device)]))) \/
  (exists k temp_c humidity battery,
      k = (name device,
           default (name device) (devices self !! name device)) /\
      cell_ok self k /\
      parse_gvh5072_5075_data (manufacturer_data adv)
        = Ok (temp_c, humidity, battery) /\
      forall w,
        on_advertisement self device adv w =
          (Ok tt,
           World (<[k := temp_c]> (temp_c_gauge w))
             (<[k := py_round (32 + 9 * temp_c / 5)%float 2]>
                (temp_f_gauge w))
             (<[k := humidity]> (humidity_gauge w))
             (<[k := battery]> (battery_gauge w))
             (log w ++
                [LogReading k.1 k.2 temp_c
                   (py_round (32 + 9 * temp_c / 5)%float 2) humidity
                   battery]))).
Proof.
  destruct (startswith (name device) "GVH") eqn:Hpre.
  - destruct (not_on_scan_list self (name device)) eqn:Hacc.
    + right. left. intros w. apply on_advertisement_ignored; assumption.
    + destruct (GOVEE_PARSERS !! split_head "_" (name device))
        as [parser|] eqn:Hparser.
      * destruct (GOVEE_PARSERS_Some _ _ Hparser) as [-> _].
        destruct (parse_gvh5072_5075_data (manufacturer_data adv))
          as [[[c h] b]|e] eqn:Hres.
        -- right. right. eexists _, c, h, b.
           split; [reflexivity |]. split; [| split; [reflexivity |]].
           ++ repeat split; simpl; auto.
           ++ intros w.
              apply (on_advertisement_recorded _ _ _ _ _ _ _ _
                       Hpre Hacc Hparser Hres).
        -- left. exists (Raise e). intros w.
           apply (on_advertisement_parser_raises _ _ _ _ _ _
                    Hpre Hacc Hparser Hres).
      * left. exists (Ok tt). intros w.
        apply on_advertisement_no_parser; assumption.
  - left. exists (Ok tt). intros w.
    unfold on_advertisement. cbv zeta. rewrite Hpre. reflexivity.
Qed.

(** When the handler raises on a device that has a name. *)
Lemma on_advertisement_raises :
  forall self device adv w e,
    ((on_advertisement self device adv w).1 = Raise e <->
       startswith (name device) "GVH" = true /\
       not_on_scan_list self (name device) = false /\
       is_Some (GOVEE_PARSERS !! split_head "_" (name device)) /\
       parse_gvh5072_5075_data (manufacturer_data adv) = Raise e) /\
    ((on_advertisement self device adv w).1 = Raise e ->
     (on_advertisement self device adv w).2 = w).
Proof.
  intros self device adv w e.
  destruct (startswith (name device) "GVH") eqn:Hpre.
  - destruct (not_on_scan_list self (name device)) eqn:Hacc.
    + rewrite (on_advertisement_ignored _ _ _ _ Hpre Hacc). simpl.
      split; [split |]; intros H; try discriminate H.
      destruct H as (_ & H & _). discriminate H.
    + destruct (GOVEE_PARSERS !! split_head "_" (name device))
        as [parser|] eqn:Hparser.
      * destruct (GOVEE_PARSERS_Some _ _ Hparser) as [-> _].
        destruct (parse_gvh5072_5075_data (manufacturer_data adv))
          as [[[c h] b]|e'] eqn:Hres.
        -- rewrite (on_advertisement_recorded _ _ _ _ _ _ _ _
                      Hpre Hacc Hparser Hres). simpl.
           split; [split |]; intros H; try discriminate H.
           destruct H as (_ & _ & _ & H). discriminate H.
        -- rewrite (on_advertisement_parser_raises _ _ _ _ _ _
                      Hpre Hacc Hparser Hres). simpl.
           split; [split |].
           ++ intros H. injection H as <-. repeat split; eauto.
           ++ intros (_ & _ & _ & H). injection H as <-. reflexivity.
           ++ intros _. reflexivity.
      * rewrite (on_advertisement_no_parser _ _ _ _ Hpre Hacc Hparser).
        simpl. split; [split |]; intros H; try discriminate H.
        destruct H as (_ & _ & [x Hx] & _). discriminate Hx.
  - assert (Hret : on_advertisement self device adv w = (Ok tt, w)).
    { unfold on_advertisement. cbv zeta. rewrite Hpre. reflexivity. }
    rewrite Hret. simpl.
    split; [split |]; intros H; try discriminate H.
    destruct H as (H & _). discriminate H.
Qed.

(** X3. The handler raises exactly in two cases: the device has no name
    ([device.name] is [None]), which raises [AttributeError]; or a "GVH"
    device passes the allow-list guard, has a registered decoder, and that
    decoder raises on its manufacturer data, in which case the exception is
    the decoder's. In both cases no gauge or log record has been written
    when the exception is raised. *)
Theorem X3_handler_raises_iff_nameless_or_decoder_raises :
  forall self (device : ScannedDevice) adv w e,
    ((on_scanned_advertisement self device adv w).1 = Raise e <->
       (scanned_name device = None /\ e = AttributeError) \/
       (exists device_name,
           scanned_name device = Some device_name /\
           startswith device_name "GVH" = true /\
           not_on_scan_list self device_name = false /\
           is_Some (GOVEE_PARSERS !! split_head "_" device_name) /\
           parse_gvh5072_5075_data (manufacturer_data adv) = Raise e)) /\
    ((on_scanned_advertisement self device adv w).1 = Raise e ->
     (on_scanned_advertisement self device adv w).2 = w).
Proof.
  intros self [[n|]] adv w e; unfold on_scanned_advertisement; simpl.
  - destruct (on_advertisement_raises self {| name := n |} adv w e)
      as [Hiff Hsame].
    simpl in Hiff. split; [| exact Hsame].
    rewrite Hiff. split.
    + intros H. right. exists n. split; [reflexivity | exact H].
    + intros [[Hnone _] | (n' & Hn & H)].
      * discriminate Hnone.
      * injection Hn as <-. exact H.
  - split; [| intros _; reflexivity].
    split.
    + intros [= <-]. left. split; reflexivity.
    + intros [[_ ->] | (n' & Hn & _)].
      * reflexivity.
      * discriminate Hn.
Qed.

Lemma X3_handler_raises_iff_nameless_or_decoder_raises_witness :
  (on_scanned_advertisement
     {| poll_interval_secs := 30; devices := ∅ |}
     {| scanned_name := None |}
     {| manufacturer_data := {[ 0xec88 := [x00; x01; x02; x03; x50] ]} |}
     initial_world).1 = Raise AttributeError /\
  (on_scanned_advertisement
     {| poll_interval_secs := 30; devices := ∅ |}
     {| scanned_name := Some "GVH5075_ABCD"%string |}
     {| manufacturer_data := {[ 0xec88 := [x00; x01; x02; x03] ]} |}
     initial_world).1 = Raise IndexError.
Proof.
  split.
  - apply (proj2 (proj1 (X3_handler_raises_iff_nameless_or_decoder_raises
                           {| poll_interval_secs := 30; devices := ∅ |}
                           {| scanned_name := None |}
                           {| manufacturer_data :=
                                {[ 0xec88 := [x00; x01; x02; x03; x50] ]} |}
                           initial_world AttributeError))).
    left. split; reflexivity.
  - apply (proj2 (proj1 (X3_handler_raises_iff_nameless_or_decoder_raises
                           {| poll_interval_secs := 30; devices := ∅ |}
                           {| scanned_name := Some "GVH5075_ABCD"%string |}
                           {| manufacturer_data :=
                                {[ 0xec88 := [x00; x01; x02; x03] ]} |}
                           initial_world IndexError))).
    right. exists "GVH5075_ABCD"%string.
    split; [reflexivity | split; [reflexivity | split; [reflexivity | split]]].
    + exists parse_gvh5072_5075_data. reflexivity.
    + reflexivity.
Defined.

(** X4. A device that passes the allow-list guard but whose model (the
    part of its name before the first underscore) is neither "GVH5072" nor
    "GVH5075" is dropped without a trace: the handler returns normally,
    writes nothing and logs nothing, whatever its manufacturer data. *)
Theorem X4_unregistered_model_is_dropped :
  forall self device adv w,
    not_on_scan_list self (name device) = false ->
    split_head "_" (name device) <> "GVH5072"%string ->
    split_head "_" (name device) <> "GVH5075"%string ->
    on_advertisement self device adv w = (Ok tt, w).
Proof.
  intros self device adv w Hacc H72 H75.
  destruct (startswith (name device) "GVH") eqn:Hpre.
  - apply on_advertisement_no_parser; [exact Hpre | exact Hacc |].
    apply GOVEE_PARSERS_None. split; assumption.
  - unfold on_advertisement. cbv zeta. rewrite Hpre. reflexivity.
Qed.

Lemma X4_unregistered_model_is_dropped_witness :
  on_advertisement
    {| poll_interval_secs := 30; devices := ∅ |}
    {| name := "GVH5075ABCD" |}
    {| manufacturer_data := {[ 0xec88 := [x00; x01; x02; x03] ]} |}
    initial_world
  = (Ok tt, initial_world).
Proof.
  apply (X4_unregistered_model_is_dropped
           {| poll_interval_secs := 30; devices := ∅ |}
           {| name := "GVH5075ABCD" |}).
  - reflexivity.
  - discriminate.
  - discriminate.
Defined.

(** X5. A call of the handler leaves every gauge cell other than
    [(device name, resolved label)] as it was: readings of other devices
    are never touched. *)
Theorem X5_other_cells_are_untouched :
  forall self device adv w k,
    k <> (name device, default (name device) (devices self !! name device)) ->
    let w' := (on_advertisement self device adv w).2 in
    temp_c_gauge w' !! k = temp_c_gauge w !! k /\
    temp_f_gauge w' !! k = temp_f_gauge w !! k /\
    humidity_gauge w' !! k = humidity_gauge w !! k /\
    battery_gauge w' !! k = battery_gauge w !! k.
Proof.
  intros self device adv w k Hk w'. subst w'.
  destruct (on_advertisement_effect self device adv)
    as [[r Hnop] | [Hign | (k' & c & h & b & -> & _ & _ & Hrec)]].
  - rewrite Hnop. auto.
  - rewrite Hign. auto.
  - rewrite Hrec. simpl.
    rewrite !lookup_insert_ne by (intros Heq; apply Hk; symmetry; exact Heq).
    auto.
Qed.

Lemma X5_other_cells_are_untouched_witness :
  let w :=
    World {[ ("GVH5072_0001"%string, "GVH5072_0001"%string) := 21.5%float ]}
      {[ ("GVH5072_0001"%string, "GVH5072_0001"%string) := 70.7%float ]}
      {[ ("GVH5072_0001"%string, "GVH5072_0001"%string) := 40%float ]}
      {[ ("GVH5072_0001"%string, "GVH5072_0001"%string) := 90 ]} [] in
  let w' :=
    (on_advertisement
       {| poll_interval_secs := 30; devices := ∅ |}
       {| name := "GVH5075_ABCD" |}
       {| manufacturer_data := {[ 0xec88 := [x00; x01; x02; x03; x50] ]} |}
       w).2 in
  temp_c_gauge w' !! ("GVH5072_0001"%string, "GVH5072_0001"%string)
  = temp_c_gauge w !! ("GVH5072_0001"%string, "GVH5072_0001"%string) /\
  temp_f_gauge w' !! ("GVH5072_0001"%string, "GVH5072_0001"%string)
  = temp_f_gauge w !! ("GVH5072_0001"%string, "GVH5072_0001"%string) /\
  humidity_gauge w' !! ("GVH5072_0001"%string, "GVH5072_0001"%string)
  = humidity_gauge w !! ("GVH5072_0001"%string, "GVH5072_0001"%string) /\
  battery_gauge w' !! ("GVH5072_0001"%string, "GVH5072_0001"%string)
  = battery_gauge w !! ("GVH5072_0001"%string, "GVH5072_0001"%string).
Proof.
  intros w.
  refine (X5_other_cells_are_untouched
            {| poll_interval_secs := 30; devices := ∅ |}
            {| name := "GVH5075_ABCD" |}
            {| manufacturer_data :=
                 {[ 0xec88 := [x00; x01; x02; x03; x50] ]} |}
            w ("GVH5072_0001"%string, "GVH5072_0001"%string) _).
  vm_compute. discriminate.
Defined.

(** X6. A call of the handler keeps every earlier log record and appends at
    most one, and that record is about the advertising device. *)
Theorem X6_log_grows_by_at_most_one_record :
  forall self device adv w,
    exists recs,
      log (on_advertisement self device adv w).2 = log w ++ recs /\
      (length recs <= 1)%nat /\
      forall r,
        In r recs ->
        r = LogIgnoring (name device) \/
        exists label temp_c temp_f humidity battery,
          r = LogReading (name device) label temp_c temp_f humidity battery.
Proof.
  intros self device adv w.
  destruct (on_advertisement_effect self device adv)
    as [[r Hnop] | [Hign | (k' & c & h & b & -> & _ & _ & Hrec)]].
  - rewrite Hnop. exists []. simpl. rewrite app_nil_r.
    split; [reflexivity | split; [lia | intros r' []]].
  - rewrite Hign. eexists. simpl.
    split; [reflexivity | split; [simpl; lia |]].
    intros r' [<- | []]. left. reflexivity.
  - rewrite Hrec. eexists. simpl.
    split; [reflexivity | split; [simpl; lia |]].
    intros r' [<- | []]. right. eauto 6.
Qed.

Lemma byte_at_range (p : bytes) (i : nat) : 0 <= byte_at p i <= 255.
Proof.
  unfold byte_at. destruct (p !! i) as [b|]; simpl.
  - apply byte_to_Z_range.
  - lia.
Qed.

(** The ranges of what the decoder returns. *)
Lemma parse_ok_ranges (data : gmap Z bytes) temp_c humidity battery :
  parse_gvh5072_5075_data data = Ok (temp_c, humidity, battery) ->
  ((0 <=? humidity)%float = true /\ (humidity <=? 99.9)%float = true) /\
  0 <= battery <= 255.
Proof.
  intros Hok.
  destruct (data !! 0xec88) as [p|] eqn:Hkey.
  - destruct (le_lt_dec 5 (length p)) as [Hlong | Hshort].
    + rewrite (parse_long_payload data p Hkey Hlong) in Hok.
      injection Hok as _ <- <-. split.
      * apply humidity_value_bounds. apply Z.mod_pos_bound. lia.
      * apply byte_at_range.
    + rewrite (parse_short_payload data p Hkey Hshort) in Hok.
      discriminate Hok.
  - rewrite (parse_missing_key data Hkey) in Hok. discriminate Hok.
Qed.

Lemma gauges_ok_initial self : gauges_ok self initial_world.
Proof.
  unfold gauges_ok, initial_world. simpl.
  repeat split; intros; rewrite ?lookup_empty in *;
    try discriminate;
    match goal with H : is_Some None |- _ => destruct H; discriminate end.
Qed.

Lemma gauges_ok_step self device adv w :
  gauges_ok self w ->
  gauges_ok self (on_advertisement self device adv w).2.
Proof.
  intros Hw. pose proof Hw as (Hcells & Hconv & Hhum & Hbat).
  destruct (on_advertisement_effect self device adv)
    as [[r Hnop] | [Hign | (k & c & h & b & _ & Hcell & Hparse & Hrec)]].
  - rewrite Hnop. exact Hw.
  - rewrite Hign. exact Hw.
  - rewrite Hrec. unfold gauges_ok. simpl.
    destruct (parse_ok_ranges _ _ _ _ Hparse) as [Hh Hb].
    split; [| split; [| split]].
    + intros k0. rewrite !lookup_insert_is_Some.
      destruct (Hcells k0) as (H0 & H1 & H2 & H3).
      destruct (decide (k = k0)) as [<- | Hne].
      * split; [intros _; exact Hcell |].
        split; [| split]; split; intros _; left; reflexivity.
      * split; [intros [Heq | [_ Hs]]; [contradiction | exact (H0 Hs)] |].
        split; [| split]; tauto.
    + intros k0 c0 f0.
      destruct (decide (k = k0)) as [<- | Hne].
      * rewrite !lookup_insert_eq. intros [= <-] [= <-]. reflexivity.
      * rewrite !lookup_insert_ne by exact Hne. apply Hconv.
    + intros k0 h0.
      destruct (decide (k = k0)) as [<- | Hne].
      * rewrite lookup_insert_eq. intros [= <-]. exact Hh.
      * rewrite lookup_insert_ne by exact Hne. apply Hhum.
    + intros k0 b0.
      destruct (decide (k = k0)) as [<- | Hne].
      * rewrite lookup_insert_eq. intros [= <-]. exact Hb.
      * rewrite lookup_insert_ne by exact Hne. apply Hbat.
Qed.

Lemma gauges_ok_after self ads w :
  gauges_ok self w -> gauges_ok self (after_advertisements self ads w).
Proof.
  revert w. induction ads as [|[device adv] ads IH]; intros w Hw.
  - exact Hw.
  - simpl. apply IH. apply gauges_ok_step. exact Hw.
Qed.

(** X7. Starting from the exporter's initial state, after any sequence of
    advertisements the four gauge families have exactly the same cells: a
    (device, label) pair has a Celsius value if and only if it has a
    Fahrenheit, a humidity and a battery value. *)
Theorem X7_gauges_have_the_same_cells :
  forall self ads k,
    let w := after_advertisements self ads initial_world in
    (is_Some (temp_c_gauge w !! k) <-> is_Some (temp_f_gauge w !! k)) /\
    (is_Some (temp_c_gauge w !! k) <-> is_Some (humidity_gauge w !! k)) /\
    (is_Some (temp_c_gauge w !! k) <-> is_Some (battery_gauge w !! k)).
Proof.
  intros self ads k w.
  destruct (gauges_ok_after self ads _ (gauges_ok_initial self))
    as (Hcells & _).
  destruct (Hcells k) as (_ & H1 & H2 & H3).
  repeat split; apply H1 || apply H2 || apply H3.
Qed.

(** What passing the allow-list guard means for the label. *)
Lemma not_on_scan_list_false self device_name :
  not_on_scan_list self device_name = false ->
  (devices self = ∅ /\
   default device_name (devices self !! device_name) = device_name) \/
  (exists label,
      devices self !! device_name = Some label /\
      label <> EmptyString /\
      default device_name (devices self !! device_name) = label).
Proof.
  unfold not_on_scan_list. intros Hacc.
  destruct (devices self !! device_name) as [[|c l]|] eqn:Hk; simpl in *.
  - rewrite (dict_bool_lookup _ _ _ Hk) in Hacc. discriminate Hacc.
  - right. exists (String c l). repeat split. discriminate.
  - left. unfold dict_bool in Hacc.
    destruct (decide (devices self = ∅)) as [Hd | Hd].
    + split; [exact Hd | reflexivity].
    + rewrite bool_decide_eq_false_2 in Hacc by exact Hd. discriminate Hacc.
Qed.

(** X8. Starting from the exporter's initial state, after any sequence of
    advertisements every gauge cell (device, label) belongs to a device
    whose name begins with "GVH" and whose model is GVH5072 or GVH5075; its
    label is not empty, and either the allow-list is empty and the label is
    the device name, or the allow-list maps the device to that label. No
    device outside a non-empty allow-list ever gets a cell. *)
Theorem X8_cells_belong_to_accepted_devices :
  forall self ads device_name label,
    let w := after_advertisements self ads initial_world in
    is_Some (temp_c_gauge w !! (device_name, label)) ->
    startswith device_name "GVH" = true /\
    (split_head "_" device_name = "GVH5072"%string \/
     split_head "_" device_name = "GVH5075"%string) /\
    label <> EmptyString /\
    (devices self = ∅ /\ label = device_name \/
     devices self !! device_name = Some label).
Proof.
  intros self ads device_name label w Hsome.
  destruct (gauges_ok_after self ads _ (gauges_ok_initial self))
    as (Hcells & _).
  destruct (Hcells (device_name, label)) as (Hcell & _).
  destruct (Hcell Hsome) as (Hpre & Hacc & Hdef & Hparser).
  simpl in *.
  destruct (GOVEE_PARSERS_Some _ _ Hparser) as [_ Hmodel].
  split; [exact Hpre | split; [exact Hmodel | split]].
  - rewrite Hdef. apply recorded_label_nonempty; assumption.
  - destruct (not_on_scan_list_false self device_name Hacc)
      as [[Hempty Hl] | (l & Hk & _ & Hl)].
    + left. split; [exact Hempty | congruence].
    + right. congruence.
Qed.

Lemma X8_cells_belong_to_accepted_devices_witness :
  startswith "GVH5075_ABCD" "GVH" = true /\
  (split_head "_" "GVH5075_ABCD" = "GVH5072"%string \/
   split_head "_" "GVH5075_ABCD" = "GVH5075"%string) /\
  "Living Room"%string <> EmptyString /\
  (devices
     {| poll_interval_secs := 30;
        devices := {[ "GVH5075_ABCD"%string := "Living Room"%string ]} |}
   = ∅ /\ "Living Room"%string = "GVH5075_ABCD"%string \/
   devices
     {| poll_interval_secs := 30;
        devices := {[ "GVH5075_ABCD"%string := "Living Room"%string ]} |}
   !! "GVH5075_ABCD"%string = Some "Living Room"%string).
Proof.
  refine (X8_cells_belong_to_accepted_devices
            {| poll_interval_secs := 30;
               devices := {[ "GVH5075_ABCD"%string := "Living Room"%string ]} |}
            [({| name := "ABCD1234" |},
              {| manufacturer_data := ∅ |});
             ({| name := "GVH5075_ABCD" |},
              {| manufacturer_data :=
                   {[ 0xec88 := [x00; x01; x02; x03; x50] ]} |})]
            "GVH5075_ABCD"%string "Living Room"%string _).
  exists 6.6051%float. vm_compute. reflexivity.
Defined.

(** X9. Starting from the exporter's initial state, after any sequence of
    advertisements the Fahrenheit gauge of every cell is the conversion
    [round(32 + 9*c/5, 2)] of the value c in its Celsius gauge: the two
    never come from different readings. *)
Theorem X9_fahrenheit_gauge_follows_celsius_gauge :
  forall self ads k temp_c,
    let w := after_advertisements self ads initial_world in
    temp_c_gauge w !! k = Some temp_c ->
    temp_f_gauge w !! k = Some (py_round (32 + 9 * temp_c / 5)%float 2).
Proof.
  intros self ads k temp_c w Hc.
  destruct (gauges_ok_after self ads _ (gauges_ok_initial self))
    as (Hcells & Hconv & _).
  destruct (Hcells k) as (_ & Hcf & _).
  destruct (proj1 Hcf (ex_intro _ temp_c Hc)) as [f Hf].
  fold w in Hf. rewrite Hf. f_equal.
  exact (Hconv k temp_c f Hc Hf).
Qed.

Lemma X9_fahrenheit_gauge_follows_celsius_gauge_witness :
  temp_f_gauge
    (after_advertisements
       {| poll_interval_secs := 30; devices := ∅ |}
       [({| name := "GVH5075_ABCD" |},
         {| manufacturer_data :=
              {[ 0xec88 := [x00; x01; x02; x03; x50] ]} |});
        ({| name := "GVH5075_ABCD" |},
         {| manufacturer_data :=
              {[ 0xec88 := [x00; x86; x1a; x80; x64] ]} |})]
       initial_world)
  !! ("GVH5075_ABCD"%string, "GVH5075_ABCD"%string)
  = Some (py_round (32 + 9 * (-40) / 5)%float 2).
Proof.
  refine (X9_fahrenheit_gauge_follows_celsius_gauge
            {| poll_interval_secs := 30; devices := ∅ |}
            [({| name := "GVH5075_ABCD" |},
              {| manufacturer_data :=
                   {[ 0xec88 := [x00; x01; x02; x03; x50] ]} |});
             ({| name := "GVH5075_ABCD" |},
              {| manufacturer_data :=
                   {[ 0xec88 := [x00; x86; x1a; x80; x64] ]} |})]
            ("GVH5075_ABCD"%string, "GVH5075_ABCD"%string) (-40)%float _).
  vm_compute. reflexivity.
Defined.

(** X10. Starting from the exporter's initial state, after any sequence of
    advertisements every value in the humidity gauge lies between 0 and
    99.9 and every value in the battery gauge between 0 and 255. *)
Theorem X10_humidity_and_battery_gauges_are_bounded :
  forall self ads k,
    let w := after_advertisements self ads initial_world in
    (forall h,
        humidity_gauge w !! k = Some h ->
        (0 <=? h)%float = true /\ (h <=? 99.9)%float = true) /\
    (forall b, battery_gauge w !! k = Some b -> 0 <= b <= 255).
Proof.
  intros self ads k w.
  destruct (gauges_ok_after self ads _ (gauges_ok_initial self))
    as (_ & _ & Hhum & Hbat).
  split; [apply Hhum | apply Hbat].
Qed.

Lemma X10_humidity_and_battery_gauges_are_bounded_witness :
  battery_gauge
    (after_advertisements
       {| poll_interval_secs := 30; devices := ∅ |}
       [({| name := "GVH5072_1F2E" |},
         {| manufacturer_data :=
              {[ 0xec88 := [x00; xff; xff; xff; xff] ]} |})]
       initial_world)
  !! ("GVH5072_1F2E"%string, "GVH5072_1F2E"%string) = Some 255 /\
  0 <= 255 <= 255.
Proof.
  assert (Hb : battery_gauge
                 (after_advertisements
                    {| poll_interval_secs := 30; devices := ∅ |}
                    [({| name := "GVH5072_1F2E" |},
                      {| manufacturer_data :=
                           {[ 0xec88 := [x00; xff; xff; xff; xff] ]} |})]
                    initial_world)
               !! ("GVH5072_1F2E"%string, "GVH5072_1F2E"%string) = Some 255)
    by (vm_compute; reflexivity).
  split; [exact Hb |].
  exact (proj2 (X10_humidity_and_battery_gauges_are_bounded
                  {| poll_interval_secs := 30; devices := ∅ |}
                  [({| name := "GVH5072_1F2E" |},
                    {| manufacturer_data :=
                         {[ 0xec88 := [x00; xff; xff; xff; xff] ]} |})]
                  ("GVH5072_1F2E"%string, "GVH5072_1F2E"%string))
           255 Hb).
Defined.

(** X11. Handling the same advertisement a second time changes no gauge:
    the gauges after two calls are the gauges after one. *)
Theorem X11_same_advertisement_twice_is_idempotent :
  forall self device adv w,
    same_gauges
      (after_advertisements self [(device, adv); (device, adv)] w)
      (after_advertisements self [(device, adv)] w).
Proof.
  intros self device adv w. unfold after_advertisements, same_gauges. simpl.
  destruct (on_advertisement_effect self device adv)
    as [[r Hnop] | [Hign | (k & c & h & b & _ & _ & _ & Hrec)]].
  - rewrite !Hnop. simpl. auto.
  - rewrite !Hign. simpl. auto.
  - rewrite !Hrec. simpl. rewrite !insert_insert_eq. auto.
Qed.

(** X12. When an advertisement of a device is recorded, the gauges keep
    nothing of the advertisement of that device handled just before it:
    they are as if only the later one had been handled. *)
Theorem X12_later_reading_replaces_earlier :
  forall self device adv1 adv2 w reading2,
    startswith (name device) "GVH" = true ->
    not_on_scan_list self (name device) = false ->
    is_Some (GOVEE_PARSERS !! split_head "_" (name device)) ->
    parse_gvh5072_5075_data (manufacturer_data adv2) = Ok reading2 ->
    same_gauges
      (after_advertisements self [(device, adv1); (device, adv2)] w)
      (after_advertisements self [(device, adv2)] w).
Proof.
  intros self device adv1 adv2 w [[c2 h2] b2] Hpre Hacc [parser Hparser] Hok.
  destruct (GOVEE_PARSERS_Some _ _ Hparser) as [-> _].
  unfold after_advertisements, same_gauges. simpl.
  rewrite !(on_advertisement_recorded _ _ adv2 _ _ _ _ _
              Hpre Hacc Hparser Hok).
  simpl.
  destruct (on_advertisement_effect self device adv1)
    as [[r Hnop] | [Hign | (k & c & h & b & -> & _ & _ & Hrec)]].
  - rewrite Hnop. simpl. auto.
  - rewrite Hign. simpl. auto.
  - rewrite Hrec. simpl. rewrite !insert_insert_eq. auto.
Qed.

Lemma X12_later_reading_replaces_earlier_witness :
  same_gauges
    (after_advertisements
       {| poll_interval_secs := 30; devices := ∅ |}
       [({| name := "GVH5075_ABCD" |},
         {| manufacturer_data :=
              {[ 0xec88 := [x00; x01; x02; x03; x50] ]} |});
        ({| name := "GVH5075_ABCD" |},
         {| manufacturer_data :=
              {[ 0xec88 := [x00; x86; x1a; x80; x64] ]} |})]
       initial_world)
    (after_advertisements
       {| poll_interval_secs := 30; devices := ∅ |}
       [({| name := "GVH5075_ABCD" |},
         {| manufacturer_data :=
              {[ 0xec88 := [x00; x86; x1a; x80; x64] ]} |})]
       initial_world).
Proof.
  refine (X12_later_reading_replaces_earlier
            {| poll_interval_secs := 30; devices := ∅ |}
            {| name := "GVH5075_ABCD" |}
            {| manufacturer_data :=
                 {[ 0xec88 := [x00; x01; x02; x03; x50] ]} |}
            {| manufacturer_data :=
                 {[ 0xec88 := [x00; x86; x1a; x80; x64] ]} |}
            initial_world ((-40)%float, 0%float, 100) _ _ _ _).
  - reflexivity.
  - reflexivity.
  - exists parse_gvh5072_5075_data. reflexivity.
  - vm_compute. reflexivity.
Defined.

(** X13. Advertisements of two devices with different names can be handled
    in either order: the gauges end up the same. *)
Theorem X13_different_devices_commute :
  forall self device1 adv1 device2 adv2 w,
    name device1 <> name device2 ->
    same_gauges
      (after_advertisements self [(device1, adv1); (device2, adv2)] w)
      (after_advertisements self [(device2, adv2); (device1, adv1)] w).
Proof.
  intros self device1 adv1 device2 adv2 w Hne.
  unfold after_advertisements, same_gauges. simpl.
  destruct (on_advertisement_effect self device1 adv1)
    as [[r1 H1] | [H1 | (k1 & c1 & h1 & b1 & -> & _ & _ & H1)]];
    destruct (on_advertisement_effect self device2 adv2)
      as [[r2 H2] | [H2 | (k2 & c2 & h2 & b2 & -> & _ & _ & H2)]];
    rewrite ?H1, ?H2; simpl; rewrite ?H1, ?H2; simpl; auto.
  repeat split; apply insert_insert_ne; intros [= Heq _]; apply Hne;
    congruence.
Qed.

Lemma X13_different_devices_commute_witness :
  same_gauges
    (after_advertisements
       {| poll_interval_secs := 30; devices := ∅ |}
       [({| name := "GVH5075_ABCD" |},
         {| manufacturer_data :=
              {[ 0xec88 := [x00; x01; x02; x03; x50] ]} |});
        ({| name := "GVH5072_1F2E" |},
         {| manufacturer_data :=
              {[ 0xec88 := [x00; x86; x1a; x80; x64] ]} |})]
       initial_world)
    (after_advertisements
       {| poll_interval_secs := 30; devices := ∅ |}
       [({| name := "GVH5072_1F2E" |},
         {| manufacturer_data :=
              {[ 0xec88 := [x00; x86; x1a; x80; x64] ]} |});
        ({| name := "GVH5075_ABCD" |},
         {| manufacturer_data :=
              {[ 0xec88 := [x00; x01; x02; x03; x50] ]} |})]
       initial_world).
Proof.
  refine (X13_different_devices_commute
            {| poll_interval_secs := 30; devices := ∅ |}
            {| name := "GVH5075_ABCD" |}
            {| manufacturer_data :=
                 {[ 0xec88 := [x00; x01; x02; x03; x50] ]} |}
            {| name := "GVH5072_1F2E" |}
            {| manufacturer_data :=
                 {[ 0xec88 := [x00; x86; x1a; x80; x64] ]} |}
            initial_world _).
  vm_compute. discriminate.
Defined.

End HandlerEffects.

(** * Properties of the command-line devices and of the scan-loop message *)

Section CommandLine.

#[local] Open Scope string_scope.

Implicit Types (pair device label : string) (args : list string).

Lemma cut_None sep s : cut sep s = None <-> occurs sep s = false.
Proof.
  induction s as [|c s IH]; simpl.
  - tauto.
  - destruct (Ascii.eqb c sep); simpl.
    + split; discriminate.
    + destruct (cut sep s) as [[a b]|].
      * split; [discriminate |].
        intros H. apply IH in H. discriminate H.
      * tauto.
Qed.

Lemma cut_app sep a b :
  occurs sep a = false -> cut sep (a ++ String sep b) = Some (a, b).
Proof.
  induction a as [|c a IH]; simpl; intros Ha.
  - rewrite Ascii.eqb_refl. reflexivity.
  - apply orb_false_iff in Ha as [Hc Ha].
    rewrite Hc, (IH Ha). reflexivity.
Qed.

Lemma cut_Some sep s a b :
  cut sep s = Some (a, b) -> s = a ++ String sep b /\ occurs sep a = false.
Proof.
  revert a. induction s as [|c s IH]; simpl; intros a H.
  - discriminate H.
  - destruct (Ascii.eqb_spec c sep) as [-> | Hne].
    + injection H as <- <-. split; reflexivity.
    + destruct (cut sep s) as [[a' b']|]; [| discriminate H].
      injection H as <- <-.
      destruct (IH a' eq_refl) as [-> Ha'].
      split; [reflexivity |]. simpl.
      rewrite Ha'. rewrite (proj2 (Ascii.eqb_neq c sep) Hne). reflexivity.
Qed.

Lemma device_and_label_plain pair :
  occurs "=" pair = false -> device_and_label pair = (pair, pair).
Proof.
  intros H. unfold device_and_label. simpl.
  rewrite (proj2 (cut_None _ _) H). reflexivity.
Qed.

Lemma device_and_label_one_equals device label :
  occurs "=" device = false ->
  occurs "=" label = false ->
  device_and_label (device ++ "=" ++ label) = (device, label).
Proof.
  intros Hd Hl.
  change (device ++ "=" ++ label) with (device ++ String "="%char label).
  unfold device_and_label. simpl.
  rewrite (cut_app "=" device label Hd).
  rewrite (proj2 (cut_None _ _) Hl). reflexivity.
Qed.

Lemma device_and_label_more_equals a b c :
  occurs "=" a = false ->
  occurs "=" b = false ->
  device_and_label (a ++ "=" ++ b ++ "=" ++ c)
  = (a ++ "=" ++ b ++ "=" ++ c, a ++ "=" ++ b ++ "=" ++ c).
Proof.
  intros Ha Hb.
  change (a ++ "=" ++ b ++ "=" ++ c)
    with (a ++ String "="%char (b ++ String "="%char c)).
  unfold device_and_label. simpl.
  rewrite (cut_app "=" a (b ++ String "="%char c) Ha).
  rewrite (cut_app "=" b c Hb). reflexivity.
Qed.

(** X14. How [run] reads one [DEVICE[=LABEL]] argument. Without "=" the
    argument is the device and its own label; with exactly one "=" the text
    before it is the device and the text after it the label; with two or
    more "=" the argument is not split at all: the whole text, "=" signs
    included, becomes both the device and the label. *)
Theorem X14_device_argument_forms :
  (forall pair,
      occurs "=" pair = false -> device_and_label pair = (pair, pair)) /\
  (forall device label,
      occurs "=" device = false ->
      occurs "=" label = false ->
      device_and_label (device ++ "=" ++ label) = (device, label)) /\
  (forall a b c,
      occurs "=" a = false ->
      occurs "=" b = false ->
      device_and_label (a ++ "=" ++ b ++ "=" ++ c)
      = (a ++ "=" ++ b ++ "=" ++ c, a ++ "=" ++ b ++ "=" ++ c)).
Proof.
  split; [| split].
  - exact device_and_label_plain.
  - exact device_and_label_one_equals.
  - exact device_and_label_more_equals.
Qed.

Lemma X14_device_argument_forms_witness :
  device_and_label "GVH5075_ABCD" = ("GVH5075_ABCD", "GVH5075_ABCD") /\
  device_and_label ("GVH5075_ABCD" ++ "=" ++ "Living Room")
  = ("GVH5075_ABCD", "Living Room") /\
  device_and_label ("GVH5075_ABCD" ++ "=" ++ "Room" ++ "=" ++ "1")
  = ("GVH5075_ABCD" ++ "=" ++ "Room" ++ "=" ++ "1",
     "GVH5075_ABCD" ++ "=" ++ "Room" ++ "=" ++ "1").
Proof.
  destruct X14_device_argument_forms as (H0 & H1 & H2).
  split; [| split].
  - apply (H0 "GVH5075_ABCD"). reflexivity.
  - apply (H1 "GVH5075_ABCD" "Living Room"); reflexivity.
  - apply (H2 "GVH5075_ABCD" "Room" "1"); reflexivity.
Defined.

Lemma run_devices_snoc args pair :
  run_devices (args ++ [pair]) =
    <[(device_and_label pair).1 := (device_and_label pair).2]>
      (run_devices args).
Proof.
  unfold run_devices. rewrite fold_left_app. simpl.
  destruct (device_and_label pair) as [d l]. reflexivity.
Qed.

(** X15. The mapping [run] builds gives each device the label of the last
    argument that names it, and has no entry for a device that no argument
    names. *)
Theorem X15_last_argument_for_a_device_wins :
  forall args device,
    (forall label,
        run_devices args !! device = Some label <->
        exists before pair after,
          args = (before ++ pair :: after)%list /\
          device_and_label pair = (device, label) /\
          forall q, In q after -> (device_and_label q).1 <> device) /\
    (run_devices args !! device = None <->
     forall q, In q args -> (device_and_label q).1 <> device).
Proof.
  intros args device.
  induction args as [|q args [IHsome IHnone]] using rev_ind.
  - split.
    + intros label. unfold run_devices. simpl. rewrite lookup_empty. split.
      * discriminate.
      * intros (before & pair & after & Heq & _).
        destruct before; discriminate Heq.
    + unfold run_devices. simpl. rewrite lookup_empty.
      split; [intros _ q [] | reflexivity].
  - rewrite run_devices_snoc.
    destruct (device_and_label q) as [dq lq] eqn:Hq. simpl.
    destruct (decide (dq = device)) as [-> | Hne].
    + rewrite lookup_insert_eq. split.
      * intros label. split.
        -- intros [= <-]. exists args, q, [].
           split; [reflexivity | split; [exact Hq | intros ? []]].
        -- intros (before & pair & after & Heq & Hpair & Hafter).
           destruct after as [|x after _] using rev_ind.
           ++ apply app_inj_tail in Heq as [_ <-].
              rewrite Hq in Hpair. injection Hpair as <-. reflexivity.
           ++ exfalso.
              rewrite app_comm_cons, app_assoc in Heq.
              apply app_inj_tail in Heq as [_ <-].
              apply (Hafter q).
              ** apply in_or_app. right. left. reflexivity.
              ** rewrite Hq. reflexivity.
      * split; [discriminate |].
        intros H. exfalso. apply (H q).
        -- apply in_or_app. right. left. reflexivity.
        -- rewrite Hq. reflexivity.
    + rewrite lookup_insert_ne by exact Hne. split.
      * intros label. rewrite IHsome. split.
        -- intros (before & pair & after & -> & Hpair & Hafter).
           exists before, pair, (after ++ [q])%list.
           split; [rewrite <- app_assoc; reflexivity |].
           split; [exact Hpair |].
           intros x Hx. apply in_app_or in Hx as [Hx | [<- | []]].
           ++ apply Hafter. exact Hx.
           ++ rewrite Hq. exact Hne.
        -- intros (before & pair & after & Heq & Hpair & Hafter).
           destruct after as [|x after _] using rev_ind.
           ++ apply app_inj_tail in Heq as [_ <-].
              rewrite Hq in Hpair. injection Hpair as -> _.
              contradiction Hne. reflexivity.
           ++ rewrite app_comm_cons, app_assoc in Heq.
              apply app_inj_tail in Heq as [-> <-].
              exists before, pair, after.
              split; [reflexivity | split; [exact Hpair |]].
              intros y Hy. apply Hafter. apply in_or_app. left. exact Hy.
      * rewrite IHnone. split.
        -- intros H x Hx. apply in_app_or in Hx as [Hx | [<- | []]].
           ++ apply H. exact Hx.
           ++ rewrite Hq. exact Hne.
        -- intros H x Hx. apply H. apply in_or_app. left. exact Hx.
Qed.

Lemma X15_last_argument_for_a_device_wins_witness :
  run_devices ["GVH5075_ABCD=Office"; "GVH5072_1F2E"; "GVH5075_ABCD=Den"]
  !! "GVH5075_ABCD" = Some "Den".
Proof.
  apply (proj1 (X15_last_argument_for_a_device_wins
                  ["GVH5075_ABCD=Office"; "GVH5072_1F2E"; "GVH5075_ABCD=Den"]
                  "GVH5075_ABCD") "Den").
  exists ["GVH5075_ABCD=Office"; "GVH5072_1F2E"], "GVH5075_ABCD=Den", [].
  split; [reflexivity | split; [reflexivity | intros q []]].
Defined.

Lemma run_devices_last args pair :
  run_devices (args ++ [pair]) !! (device_and_label pair).1
  = Some (device_and_label pair).2.
Proof. rewrite run_devices_snoc. apply lookup_insert_eq. Qed.

Lemma startswith_GVH_nonempty device : startswith device "GVH" = true ->
  device <> "".
Proof. intros H ->. discriminate H. Qed.

(** X16. What the last command-line argument for a device means to the
    handler, for a "GVH" device of a registered model whose data decodes.
    Given as [NAME], its reading is recorded under the label [NAME]; given
    as [NAME=LABEL] with a non-empty label, under [LABEL]; given as [NAME=]
    (empty label), the device is treated as not on the scan list: the
    handler logs that it is ignored and writes no gauge. *)
Theorem X16_device_argument_decides_label_or_rejection :
  forall args poll device_name adv w temp_c humidity battery,
    startswith device_name "GVH" = true ->
    occurs "=" device_name = false ->
    is_Some (GOVEE_PARSERS !! split_head "_" device_name) ->
    parse_gvh5072_5075_data (manufacturer_data adv)
      = Ok (temp_c, humidity, battery) ->
    (let self := {| poll_interval_secs := poll;
                    devices := run_devices (args ++ [device_name]) |} in
     temp_c_gauge (on_advertisement self {| name := device_name |} adv w).2
       !! (device_name, device_name) = Some temp_c) /\
    (forall label,
        label <> "" ->
        occurs "=" label = false ->
        let self := {| poll_interval_secs := poll;
                       devices :=
                         run_devices
                           (args ++ [device_name ++ "=" ++ label]) |} in
        temp_c_gauge (on_advertisement self {| name := device_name |} adv w).2
          !! (device_name, label) = Some temp_c) /\
    (let self := {| poll_interval_secs := poll;
                    devices := run_devices (args ++ [device_name ++ "="]) |} in
     on_advertisement self {| name := device_name |} adv w =
       (Ok tt,
        World (temp_c_gauge w) (temp_f_gauge w) (humidity_gauge w)
          (battery_gauge w) (log w ++ [LogIgnoring device_name]))).
Proof.
  intros args poll n adv w c h b Hpre Hn [parser Hparser] Hok.
  destruct (GOVEE_PARSERS_Some _ _ Hparser) as [-> _].
  pose proof (startswith_GVH_nonempty n Hpre) as Hne.
  split; [| split].
  - intros self.
    assert (Hk : devices self !! n = Some n).
    { pose proof (run_devices_last args n) as H.
      rewrite (device_and_label_plain n Hn) in H. exact H. }
    rewrite (on_advertisement_recorded self {| name := n |} adv w _ c h b
               Hpre (not_on_scan_list_labelled self n n Hk Hne) Hparser Hok).
    cbn [snd temp_c_gauge name]. rewrite Hk. simpl. apply lookup_insert_eq.
  - intros l Hl Hocc self.
    assert (Hk : devices self !! n = Some l).
    { pose proof (run_devices_last args (n ++ "=" ++ l)) as H.
      rewrite (device_and_label_one_equals n l Hn Hocc) in H. exact H. }
    rewrite (on_advertisement_recorded self {| name := n |} adv w _ c h b
               Hpre (not_on_scan_list_labelled self n l Hk Hl) Hparser Hok).
    cbn [snd temp_c_gauge name]. rewrite Hk. simpl. apply lookup_insert_eq.
  - intros self.
    assert (Hk : devices self !! n = Some "").
    { pose proof (run_devices_last args (n ++ "=" ++ "")) as H.
      rewrite (device_and_label_one_equals n "" Hn eq_refl) in H. exact H. }
    apply (on_advertisement_ignored self {| name := n |} adv w Hpre).
    apply not_on_scan_list_empty_label. exact Hk.
Qed.

Lemma X16_device_argument_decides_label_or_rejection_witness :
  on_advertisement
    {| poll_interval_secs := 30;
       devices := run_devices (["GVH5072_1F2E"] ++ ["GVH5075_ABCD" ++ "="]) |}
    {| name := "GVH5075_ABCD" |}
    {| manufacturer_data := {[ 0xec88 := [x00; x01; x02; x03; x50] ]} |}
    initial_world
  = (Ok tt,
     World (temp_c_gauge initial_world) (temp_f_gauge initial_world)
       (humidity_gauge initial_world) (battery_gauge initial_world)
       (log initial_world ++ [LogIgnoring "GVH5075_ABCD"])).
Proof.
  refine (proj2 (proj2 (X16_device_argument_decides_label_or_rejection
                          ["GVH5072_1F2E"] 30 "GVH5075_ABCD"
                          {| manufacturer_data :=
                               {[ 0xec88 := [x00; x01; x02; x03; x50] ]} |}
                          initial_world 6.6051%float 5.1%float 80
                          _ _ _ _))).
  - reflexivity.
  - reflexivity.
  - exists parse_gvh5072_5075_data. reflexivity.
  - vm_compute. reflexivity.
Defined.

(** Reading back an item as [run_scan_loop] writes it gives the item, for
    every item that [run] can have produced. *)
Lemma device_entry_read_back pair :
  device_and_label (device_entry (device_and_label pair))
  = device_and_label pair.
Proof.
  destruct (cut "=" pair) as [[a rest]|] eqn:Hcut.
  - destruct (cut_Some _ _ _ _ Hcut) as [Hpair Ha].
    destruct (cut "=" rest) as [[b c]|] eqn:Hrest.
    + assert (Hdl : device_and_label pair = (pair, pair)).
      { unfold device_and_label. simpl. rewrite Hcut, Hrest. reflexivity. }
      rewrite Hdl. simpl. rewrite String.eqb_refl. exact Hdl.
    + assert (Hdl : device_and_label pair = (a, rest)).
      { unfold device_and_label. simpl. rewrite Hcut, Hrest. reflexivity. }
      rewrite Hdl. simpl.
      apply cut_None in Hrest.
      destruct (String.eqb_spec a rest) as [<- | Hne].
      * apply device_and_label_plain. exact Ha.
      * apply device_and_label_one_equals; assumption.
  - assert (Hdl : device_and_label pair = (pair, pair)).
    { unfold device_and_label. simpl. rewrite Hcut. reflexivity. }
    rewrite Hdl. simpl. rewrite String.eqb_refl. exact Hdl.
Qed.

Lemma run_devices_entries args device label :
  run_devices args !! device = Some label ->
  device_and_label (device_entry (device, label)) = (device, label).
Proof.
  induction args as [|q args IH] using rev_ind.
  - unfold run_devices. simpl. rewrite lookup_empty. discriminate.
  - rewrite run_devices_snoc.
    destruct (decide ((device_and_label q).1 = device)) as [<- | Hne].
    + rewrite lookup_insert_eq. intros [= <-].
      rewrite <- surjective_pairing. apply device_entry_read_back.
    + rewrite lookup_insert_ne by exact Hne. exact IH.
Qed.

Lemma run_devices_of_entries (items : list (string * string)) :
  NoDup items.*1 ->
  (forall item,
      In item items -> device_and_label (device_entry item) = item) ->
  run_devices (map device_entry items) = list_to_map items.
Proof.
  induction items as [|[d l] items IH] using rev_ind; intros Hnd Hwf.
  - reflexivity.
  - rewrite map_app. cbn [map]. rewrite run_devices_snoc.
    rewrite (Hwf (d, l)) by (apply in_or_app; right; left; reflexivity).
    cbn [fst snd].
    rewrite fmap_app in Hnd. simpl in Hnd.
    apply NoDup_app in Hnd as (Hnd & Hdisj & _).
    rewrite IH.
    + symmetry. apply list_to_map_snoc.
      intros Hin. apply (Hdisj d Hin). left.
    + exact Hnd.
    + intros item Hitem. apply Hwf. apply in_or_app. left. exact Hitem.
Qed.

(** X17. The device list that [run_scan_loop] logs reads back as the
    configuration: giving its entries to [run] as arguments rebuilds
    exactly the mapping that [run] built from the original arguments. *)
Theorem X17_logged_device_list_reads_back :
  forall args,
    run_devices (device_list (run_devices args)) = run_devices args.
Proof.
  intros args. unfold device_list, sorted_items.
  pose proof (merge_sort_Permutation by_device
                (map_to_list (run_devices args))) as Hperm.
  rewrite run_devices_of_entries.
  - rewrite (list_to_map_proper _ (map_to_list (run_devices args))).
    + apply list_to_map_to_list.
    + rewrite Hperm. apply NoDup_fst_map_to_list.
    + exact Hperm.
  - rewrite Hperm. apply NoDup_fst_map_to_list.
  - intros [d l] Hin.
    apply (run_devices_entries args).
    apply elem_of_map_to_list. rewrite <- Hperm.
    apply list_elem_of_In. exact Hin.
Qed.

(** X18. Any device argument at all turns the allow-list on: a device that
    no argument names is treated as not on the scan list exactly when at
    least one argument was given. *)
Theorem X18_any_argument_turns_the_allow_list_on :
  forall args poll device_name,
    run_devices args !! device_name = None ->
    (not_on_scan_list
       {| poll_interval_secs := poll; devices := run_devices args |}
       device_name = true
     <-> args <> []).
Proof.
  intros args poll n Hnone. unfold not_on_scan_list. simpl.
  rewrite Hnone. simpl.
  destruct args as [|q args _] using rev_ind.
  - split; [discriminate | intros H; contradiction H; reflexivity].
  - split.
    + intros _ H. destruct args; discriminate H.
    + intros _. apply dict_bool_nonempty.
      rewrite run_devices_snoc. apply insert_non_empty.
Qed.

Lemma X18_any_argument_turns_the_allow_list_on_witness :
  not_on_scan_list
    {| poll_interval_secs := 30; devices := run_devices ["="] |}
    "GVH5075_ABCD" = true.
Proof.
  apply (proj2 (X18_any_argument_turns_the_allow_list_on
                  ["="] 30 "GVH5075_ABCD" eq_refl)).
  discriminate.
Defined.

(** X19. The line logged when the scan loop starts says that all devices
    are scanned for exactly when no device argument was given. *)
Theorem X19_scan_message_all_devices_iff_no_arguments :
  forall args poll,
    scan_loop_message
      {| poll_interval_secs := poll; devices := run_devices args |}
    = "Scanning for all devices..." <-> args = [].
Proof.
  intros args poll. unfold scan_loop_message. cbn [devices].
  destruct args as [|q args _] using rev_ind.
  - split; reflexivity.
  - rewrite dict_bool_nonempty
      by (rewrite run_devices_snoc; apply insert_non_empty).
    split.
    + cbn [String.append]. intros H. discriminate H.
    + intros H. destruct args; discriminate H.
Qed.

End CommandLine.
